(** * jsocol.io/middleware: deadline propagation and access logging

    A shallow embedding of the two middleware packages of the repository,
    [deadline] (server stage [Middleware.ServeHTTP], client stage
    [Transport.RoundTrip], functional options) and [logging] (the
    status-capturing [wrappedWriter] and the access-log [ServeHTTP]),
    together with the part of Go's [time], [context] and [net/http]
    packages that the two stages call. *)

From Stdlib Require Import ZArith Lia Bool List Ascii String.
From stdpp Require Import gmap strings.

Import ListNotations.
Local Open Scope Z_scope.

(* ===================================================================== *)
(** ** Go's [time] package, as far as the deadline stages use it          *)
(* ===================================================================== *)

Module GoTime.

(** The definitions follow [time.go], [format.go] and [format_rfc3339.go]
    of Go 1.22, the release whose [http.ServeMux] patterns the tests of the
    repository use. *)

(** [time.Duration] is an [int64] count of nanoseconds. *)
Definition Duration := Z.

Definition int64 (d : Z) : Prop := - 2 ^ 63 <= d < 2 ^ 63.

Definition Nanosecond : Duration := 1.
Definition Millisecond : Duration := 1000000.
Definition Second : Duration := 1000000000.

(** A [time.Location] maps a Unix time in seconds to the offset east of
    UTC, in seconds, that is in effect at that time ([Location.lookup]). *)
Record Location := { lookup : Z -> Z }.

Definition UTC : Location := {| lookup := fun _ => 0 |}.
Definition FixedZone (offset : Z) : Location := {| lookup := fun _ => offset |}.

(** A [time.Time] is an instant with nanosecond precision and a location.
    The instant is kept as the number of nanoseconds since January 1 of
    year 1, 00:00:00 UTC, the epoch of Go's internal seconds counter; the
    zero value [Time{}] is that epoch itself.  The monotonic clock reading
    that [time.Now] attaches is not part of the model: instants are
    compared by their wall-clock reading. *)
Record Time := { ns : Z; loc : Location }.

Definition zeroTime : Time := {| ns := 0; loc := UTC |}.

Definition secondsPerMinute := 60.
Definition secondsPerHour := 60 * secondsPerMinute.
Definition secondsPerDay := 24 * secondsPerHour.
Definition daysPer400Years := 365 * 400 + 97.
Definition daysPer100Years := 365 * 100 + 24.
Definition daysPer4Years := 365 * 4 + 1.

Definition absoluteZeroYear := -292277022399.
Definition internalYear := 1.
Definition absoluteToInternal :=
  (absoluteZeroYear - internalYear) * 31556952.   (* 365.2425 * secondsPerDay *)
Definition internalToAbsolute := - absoluteToInternal.
Definition unixToInternal :=
  (1969 * 365 + 1969 / 4 - 1969 / 100 + 1969 / 400) * secondsPerDay.
Definition internalToUnix := - unixToInternal.

(** [t.sec()], [t.nsec()] and [t.unixSec()]. *)
Definition sec (t : Time) : Z := ns t / 1000000000.
Definition nsec (t : Time) : Z := ns t mod 1000000000.
Definition unixSec (t : Time) : Z := sec t + internalToUnix.

(** [unixTime(sec, nsec)] followed by [setLoc]. *)
Definition unixTime (unix nsec : Z) (l : Location) : Time :=
  {| ns := (unix + unixToInternal) * 1000000000 + nsec; loc := l |}.

(** [t.Add(d)].  The 64-bit seconds counter of a [Time] spans hundreds of
    billions of years on both sides of year 1, so that adding an [int64]
    number of nanoseconds to a clock reading or to a parsed timestamp
    never saturates it; the model adds in [Z]. *)
Definition Add (t : Time) (d : Duration) : Time :=
  {| ns := ns t + d; loc := loc t |}.

Definition addSec (t : Time) (d : Z) : Time :=
  {| ns := ns t + d * 1000000000; loc := loc t |}.

Definition After (t u : Time) : bool := ns u <? ns t.
Definition Before (t u : Time) : bool := ns t <? ns u.
Definition Equal (t u : Time) : bool := ns t =? ns u.
Definition IsZero (t : Time) : bool := ns t =? 0.

(** *** Calendar computations ([time.go]) *)

Definition isLeap (year : Z) : bool :=
  (Z.rem year 4 =? 0) && (negb (Z.rem year 100 =? 0) || (Z.rem year 400 =? 0)).

(** [daysBefore[m]] counts the days of a non-leap year before month [m+1]. *)
Definition daysBefore : list Z :=
  [0; 31; 59; 90; 120; 151; 181; 212; 243; 273; 304; 334; 365].

Definition daysBeforeAt (m : Z) : Z := nth (Z.to_nat m) daysBefore 0.

Definition January := 1.
Definition February := 2.
Definition March := 3.

Definition daysIn (m year : Z) : Z :=
  if (m =? February) && isLeap year then 29
  else daysBeforeAt m - daysBeforeAt (m - 1).

(** [t.locabs()]: the zone offset in effect and the absolute time, in
    seconds since the absolute zero year, shifted to the zone.  Go keeps
    [abs] in a [uint64]; it is non-negative for every instant after the
    absolute zero year. *)
Definition locabs (t : Time) : Z * Z :=
  let offset := lookup (loc t) (unixSec t) in
  (offset, unixSec t + offset + (unixToInternal + internalToAbsolute)).

(** [absDate(abs, true)]: year, month and day of month. *)
Definition absDate (abs : Z) : Z * Z * Z :=
  let d := abs / secondsPerDay in
  let n := d / daysPer400Years in
  let y := 400 * n in
  let d := d - daysPer400Years * n in
  let n := d / daysPer100Years in
  let n := n - Z.shiftr n 2 in
  let y := y + 100 * n in
  let d := d - daysPer100Years * n in
  let n := d / daysPer4Years in
  let y := y + 4 * n in
  let d := d - daysPer4Years * n in
  let n := d / 365 in
  let n := n - Z.shiftr n 2 in
  let y := y + n in
  let d := d - 365 * n in
  let year := y + absoluteZeroYear in
  let yday := d in
  let day := yday in
  if isLeap year && (day =? 31 + 29 - 1) then (year, February, 29)
  else
    let day := if isLeap year && (day >? 31 + 29 - 1) then day - 1 else day in
    let month := day / 31 in
    let end_ := daysBeforeAt (month + 1) in
    let '(month, begin) :=
      if day >=? end_ then (month + 1, end_) else (month, daysBeforeAt month) in
    (year, month + 1, day - begin + 1).

(** [absClock(abs)]: hour, minute and second within the day. *)
Definition absClock (abs : Z) : Z * Z * Z :=
  let sec := abs mod secondsPerDay in
  let hour := sec / secondsPerHour in
  let sec := sec - hour * secondsPerHour in
  let min := sec / secondsPerMinute in
  let sec := sec - min * secondsPerMinute in
  (hour, min, sec).

(** [norm(hi, lo, base)] carries the part of [lo] outside [0, base) into
    [hi]. *)
Definition norm (hi lo base : Z) : Z * Z := (hi + lo / base, lo mod base).

Definition daysSinceEpoch (year : Z) : Z :=
  let y := year - absoluteZeroYear in
  let n := y / 400 in
  let y := y - 400 * n in
  let d := daysPer400Years * n in
  let n := y / 100 in
  let y := y - 100 * n in
  let d := d + daysPer100Years * n in
  let n := y / 4 in
  let y := y - 4 * n in
  let d := d + daysPer4Years * n in
  let n := y in
  d + 365 * n.

(** [time.Date(year, month, day, hour, min, sec, nsec, time.UTC)]; the
    parser calls [Date] with [UTC] only and shifts the result by the parsed
    zone offset afterwards. *)
Definition Date (year month day hour min sec nsec : Z) : Time :=
  let m := month - 1 in
  let '(year, m) := norm year m 12 in
  let month := m + 1 in
  let '(sec, nsec) := norm sec nsec 1000000000 in
  let '(min, sec) := norm min sec 60 in
  let '(hour, min) := norm hour min 60 in
  let '(day, hour) := norm day hour 24 in
  let d := daysSinceEpoch year in
  let d := d + daysBeforeAt (month - 1) in
  let d := if isLeap year && (month >=? March) then d + 1 else d in
  let d := d + (day - 1) in
  let abs := d * secondsPerDay in
  let abs := abs + (hour * secondsPerHour + min * secondsPerMinute + sec) in
  let unix := abs + (absoluteToInternal + internalToUnix) in
  unixTime unix nsec UTC.

(** *** Bytes and decimal digits *)

Definition byteVal (c : ascii) : Z := Z.of_N (N_of_ascii c).
Definition byteOf (z : Z) : ascii := ascii_of_N (Z.to_N z).

Definition isDigitByte (c : ascii) : bool :=
  (byteVal "0" <=? byteVal c) && (byteVal c <=? byteVal "9").

(** [isDigit(s, i)]: is [s[i]] in range and a decimal digit. *)
Definition isDigit (s : list ascii) (i : nat) : bool :=
  match nth_error s i with
  | Some c => isDigitByte c
  | None => false
  end.

Definition digitVal (c : ascii) : Z := byteVal c - byteVal "0".
Definition digitByte (d : Z) : ascii := byteOf (byteVal "0" + d).

(** *** Formatting ([format.go], [format_rfc3339.go]) *)

(** The number of decimal digits of [u], counted as [appendInt] does. *)
Fixpoint countDigits (fuel : nat) (u2 : Z) (n : nat) : nat :=
  match fuel with
  | O => n
  | S fuel' => if u2 >? 0 then countDigits fuel' (u2 / 10) (S n) else n
  end.

(** The [n] low decimal digits of [u], most significant first. *)
Fixpoint decimal (n : nat) (u : Z) : list ascii :=
  match n with
  | O => []
  | S n' => decimal n' (u / 10) ++ [digitByte (u mod 10)]
  end.

(** [appendInt(b, x, width)] appends the decimal form of [x], zero-padded
    to [width] digits.  Twenty digits are enough for any [uint]. *)
Definition appendInt (b : list ascii) (x : Z) (width : nat) : list ascii :=
  let '(b, u) := if x <? 0 then (b ++ ["-"%char], - x) else (b, x) in
  let n := countDigits 20 u (if u =? 0 then 1%nat else 0%nat) in
  b ++ repeat "0"%char (width - n) ++ decimal n u.

(** Removal of the trailing bytes equal to [c], on the reversed buffer. *)
Fixpoint dropWhileEq (c : ascii) (r : list ascii) : list ascii :=
  match r with
  | x :: r' => if Ascii.eqb x c then dropWhileEq c r' else r
  | [] => []
  end.

(** [appendNano(b, nanosec, std)] for [std = stdFracSecond9] with nine
    digits and separator ['.']: the fraction with its trailing zeros
    trimmed, and nothing at all for a whole second. *)
Definition appendNano (b : list ascii) (nanosec : Z) : list ascii :=
  if nanosec =? 0 then b
  else
    let b := b ++ ["."%char] in
    let b := appendInt b nanosec 9 in
    let r := dropWhileEq "0"%char (rev b) in
    let r := match r with
             | x :: r' => if Ascii.eqb x "."%char then r' else r
             | [] => r
             end in
    rev r.

(** [t.appendFormatRFC3339(b, nanos)]. *)
Definition appendFormatRFC3339 (t : Time) (b : list ascii) (nanos : bool)
  : list ascii :=
  let '(offset, abs) := locabs t in
  let '(year, month, day) := absDate abs in
  let b := appendInt b year 4 in
  let b := b ++ ["-"%char] in
  let b := appendInt b month 2 in
  let b := b ++ ["-"%char] in
  let b := appendInt b day 2 in
  let b := b ++ ["T"%char] in
  let '(hour, min, sec) := absClock abs in
  let b := appendInt b hour 2 in
  let b := b ++ [":"%char] in
  let b := appendInt b min 2 in
  let b := b ++ [":"%char] in
  let b := appendInt b sec 2 in
  let b := if nanos then appendNano b (nsec t) else b in
  if offset =? 0 then b ++ ["Z"%char]
  else
    let zone := Z.quot offset 60 in
    let '(b, zone) :=
      if zone <? 0 then (b ++ ["-"%char], - zone) else (b ++ ["+"%char], zone) in
    let b := appendInt b (zone / 60) 2 in
    let b := b ++ [":"%char] in
    appendInt b (zone mod 60) 2.

(** The two RFC 3339 layouts of the package. *)
Inductive Layout := RFC3339 | RFC3339Nano.

(** [t.Format(layout)] for the two RFC 3339 layouts. *)
Definition Format (t : Time) (layout : Layout) : string :=
  string_of_list_ascii
    (appendFormatRFC3339 t []
       match layout with RFC3339 => false | RFC3339Nano => true end).

(** *** Parsing ([format.go]) *)

(** [leadingInt(s)] consumes the leading decimal digits of [s] and fails
    when their value exceeds [1<<63]. *)
Fixpoint leadingInt (s : list ascii) (x : Z) : option (Z * list ascii) :=
  match s with
  | c :: s' =>
      if isDigitByte c then
        if x >? 2 ^ 63 / 10 then None
        else
          let x := x * 10 + digitVal c in
          if x >? 2 ^ 63 then None else leadingInt s' x
      else Some (x, s)
  | [] => Some (x, [])
  end.

(** [atoi(s)]: an optional sign and then digits only. *)
Definition atoi (s : list ascii) : option Z :=
  let '(neg, s) :=
    match s with
    | c :: s' =>
        if Ascii.eqb c "-" || Ascii.eqb c "+" then (Ascii.eqb c "-", s')
        else (false, s)
    | [] => (false, s)
    end in
  match leadingInt s 0 with
  | Some (q, []) =>
      let x := if q <? 2 ^ 63 then q else q - 2 ^ 64 in
      Some (if neg then - x else x)
  | _ => None
  end.

(** [getnum(s, fixed)] reads one or two digits; exactly two when [fixed]. *)
Definition getnum (s : list ascii) (fixed : bool) : option (Z * list ascii) :=
  if negb (isDigit s 0) then None
  else if negb (isDigit s 1) then
    if fixed then None else Some (digitVal (nth 0 s "0"%char), skipn 1 s)
  else
    Some (digitVal (nth 0 s "0"%char) * 10 + digitVal (nth 1 s "0"%char),
          skipn 2 s).

Definition commaOrPeriod (c : ascii) : bool :=
  Ascii.eqb c "."%char || Ascii.eqb c ","%char.

(** [parseNanoseconds(value, nbytes)]: the separator and up to nine digits,
    scaled to nanoseconds; digits beyond the ninth are dropped. *)
Definition parseNanoseconds (value : list ascii) (nbytes : nat) : option Z :=
  if negb (commaOrPeriod (nth 0 value "000"%char)) then None
  else
    let '(value, nbytes) :=
      if (10 <? nbytes)%nat then (firstn 10 value, 10%nat)
      else (value, nbytes) in
    match atoi (skipn 1 (firstn nbytes value)) with
    | None => None
    | Some ns =>
        if ns <? 0 then None
        else Some (ns * 10 ^ Z.of_nat (10 - nbytes))
    end.

(** [skip(value, prefix)] for the literal text of a layout; the prefixes of
    the RFC 3339 layouts hold no space. *)
Fixpoint skip (value prefix : list ascii) : option (list ascii) :=
  match prefix with
  | [] => Some value
  | p :: prefix' =>
      match value with
      | v :: value' => if Ascii.eqb v p then skip value' prefix' else None
      | [] => None
      end
  end.

(** The length of the longest prefix of [s] made of digits. *)
Fixpoint digitRun (s : list ascii) : nat :=
  match s with
  | c :: s' => if isDigitByte c then S (digitRun s') else O
  | [] => O
  end.

(** The chunk [stdFracSecond9] of the layout: an optional fraction. *)
Definition parseFrac (value : list ascii) : option (Z * list ascii) :=
  if (length value <? 2)%nat
     || negb (commaOrPeriod (nth 0 value "000"%char))
     || negb (isDigit value 1)
  then Some (0, value)
  else
    let i := digitRun (skipn 1 value) in
    nsec ← parseNanoseconds value (1 + i);
    Some (nsec, skipn (1 + i) value).

(** The chunk [stdISO8601ColonTZ] of the layout ([Z07:00]): the location
    when the zone is [Z], the offset in seconds otherwise ([-1] stands for
    no offset, as in the source). *)
Definition parseZone (value : list ascii)
  : option (option Location * Z * list ascii) :=
  match value with
  | "Z"%char :: value' => Some (Some UTC, -1, value')
  | _ =>
      if (length value <? 6)%nat then None
      else if negb (Ascii.eqb (nth 3 value "000"%char) ":"%char) then None
      else
        let sign := nth 0 value "000"%char in
        let hour := firstn 2 (skipn 1 value) in
        let min := firstn 2 (skipn 4 value) in
        let seconds := ["0"%char; "0"%char] in
        let value := skipn 6 value in
        '(hr, _) ← getnum hour true;
        '(mm, _) ← getnum min true;
        '(ss, _) ← getnum seconds true;
        if (hr >? 24) || (mm >? 60) || (ss >? 60) then None
        else
          let zoneOffset := (hr * 60 + mm) * 60 + ss in
          if Ascii.eqb sign "+"%char then Some (None, zoneOffset, value)
          else if Ascii.eqb sign "-"%char then Some (None, - zoneOffset, value)
          else None
  end.

(** [parse(layout, value, UTC, Local)] unfolded along the chunks of the
    layout [RFC3339Nano], ["2006-01-02T15:04:05.999999999Z07:00"]:
    [stdLongYear "-" stdZeroMonth "-" stdZeroDay "T" stdHour ":"
    stdZeroMinute ":" stdZeroSecond stdFracSecond9 stdISO8601ColonTZ].
    A zone offset yields a time in a zone of that offset; whether that zone
    is [Local] or a fixed zone does not change the instant. *)
Definition parse (value : list ascii) : option Time :=
  if (length value <? 4)%nat || negb (isDigit value 0) then None
  else
    year ← atoi (firstn 4 value);
    let value := skipn 4 value in
    value ← skip value ["-"%char];
    '(month, value) ← getnum value true;
    if (month <=? 0) || (12 <? month) then None
    else
      value ← skip value ["-"%char];
      '(day, value) ← getnum value true;
      value ← skip value ["T"%char];
      '(hour, value) ← getnum value false;
      if (hour <? 0) || (24 <=? hour) then None
      else
        value ← skip value [":"%char];
        '(min, value) ← getnum value true;
        if (min <? 0) || (60 <=? min) then None
        else
          value ← skip value [":"%char];
          '(sec, value) ← getnum value true;
          if (sec <? 0) || (60 <=? sec) then None
          else
            '(nsec, value) ← parseFrac value;
            '(z, zoneOffset, value) ← parseZone value;
            if negb (length value =? 0)%nat then None
            else if (day <? 1) || (day >? daysIn month year) then None
            else
              match z with
              | Some _ => Some (Date year month day hour min sec nsec)
              | None =>
                  if negb (zoneOffset =? -1) then
                    let t := Date year month day hour min sec nsec in
                    let t := addSec t (- zoneOffset) in
                    Some {| ns := ns t; loc := FixedZone zoneOffset |}
                  else Some (Date year month day hour min sec nsec)
              end.

(** [time.Parse(time.RFC3339Nano, value)]; [None] stands for a non-nil
    error. *)
Definition Parse (value : string) : option Time :=
  parse (list_ascii_of_string value).

End GoTime.

(* ===================================================================== *)
(** ** [context] and [net/http], as far as the stages use them            *)
(* ===================================================================== *)

Module GoContext.
Import GoTime.

(** Of a [context.Context] the stages observe the deadline only:
    [ctx.Deadline()] returns [(d, true)] for [Some d] and [ok = false] for
    [None]. *)
Record Ctx := { Deadline : option Time }.

Definition Background : Ctx := {| Deadline := None |}.

(** [context.WithDeadline(parent, d)]: the child carries [d] unless the
    parent's own deadline is already sooner. *)
Definition WithDeadline (parent : Ctx) (d : Time) : Ctx :=
  match Deadline parent with
  | Some cur => if Before cur d then parent else {| Deadline := Some d |}
  | None => {| Deadline := Some d |}
  end.

End GoContext.

Module GoHTTP.
Import GoTime GoContext.

Definition StatusOK := 200.

Definition isLower (c : ascii) : bool :=
  (byteVal "a" <=? byteVal c) && (byteVal c <=? byteVal "z").
Definition isUpper (c : ascii) : bool :=
  (byteVal "A" <=? byteVal c) && (byteVal c <=? byteVal "Z").
Definition toLower := byteVal "a" - byteVal "A".

(** The bytes of an HTTP token. *)
Definition validHeaderFieldByte (c : ascii) : bool :=
  isLower c || isUpper c || isDigitByte c
  || existsb (Ascii.eqb c) (list_ascii_of_string "!#$%&'*+-.^_`|~").

Fixpoint canonicalize (upper : bool) (a : list ascii) : list ascii :=
  match a with
  | [] => []
  | c :: a' =>
      let c :=
        if upper && isLower c then byteOf (byteVal c - toLower)
        else if negb upper && isUpper c then byteOf (byteVal c + toLower)
        else c in
      c :: canonicalize (Ascii.eqb c "-"%char) a'
  end.

(** [textproto.CanonicalMIMEHeaderKey(s)]: the first letter and every
    letter after a hyphen in upper case, the others in lower case; a key
    that is not a token is left as it is. *)
Definition CanonicalMIMEHeaderKey (s : string) : string :=
  let a := list_ascii_of_string s in
  if forallb validHeaderFieldByte a
  then string_of_list_ascii (canonicalize true a)
  else s.

(** [http.Header], a [map[string][]string] under canonical keys. *)
Abbreviation Header := (gmap string (list string)).

(** [h.Get(key)]: the first value under the canonical key, or [""]. *)
Definition Get (h : Header) (key : string) : string :=
  match h !! CanonicalMIMEHeaderKey key with
  | Some (v :: _) => v
  | _ => ""
  end.

(** [h.Add(key, value)] appends to the values under the canonical key. *)
Definition Add (h : Header) (key value : string) : Header :=
  let key := CanonicalMIMEHeaderKey key in
  <[ key := default [] (h !! key) ++ [value] ]> h.

(** [h.Del(key)]. *)
Definition Del (h : Header) (key : string) : Header :=
  delete (CanonicalMIMEHeaderKey key) h.

(** An [http.Request]: its context, its header collection, and the rest
    of the request, which the stages pass on. *)
Record Request := {
  Context : Ctx;
  Header_ : Header;
  Method : string;
  Path : string;
  Body : string
}.

(** [r.WithContext(ctx)]: a shallow copy of [r] with the context replaced. *)
Definition WithContext (r : Request) (ctx : Ctx) : Request :=
  {| Context := ctx; Header_ := Header_ r; Method := Method r;
     Path := Path r; Body := Body r |}.

(** [r.Header.Add(key, value)], which updates the header map of [r]. *)
Definition HeaderAdd (r : Request) (key value : string) : Request :=
  {| Context := Context r; Header_ := Add (Header_ r) key value;
     Method := Method r; Path := Path r; Body := Body r |}.

(** [r.Header.Del(key)]. *)
Definition HeaderDel (r : Request) (key : string) : Request :=
  {| Context := Context r; Header_ := Del (Header_ r) key;
     Method := Method r; Path := Path r; Body := Body r |}.

(** The interface [http.ResponseWriter]: [WriteHeader(code)] and
    [Write(data)], the latter returning the byte count and the error. *)
Class ResponseWriter (W : Type) := {
  WriteHeader : W -> Z -> W;
  Write : W -> list ascii -> W * (Z * option string)
}.

(** [httptest.ResponseRecorder], the writer of the repository's tests: the
    first [WriteHeader] fixes the code, a [Write] before any [WriteHeader]
    fixes it to 200, and later calls of [WriteHeader] change nothing. *)
Record ResponseRecorder := {
  Code : Z;
  wroteHeader : bool;
  BodyBytes : list ascii
}.

Definition NewRecorder : ResponseRecorder :=
  {| Code := 200; wroteHeader := false; BodyBytes := [] |}.

Definition Recorder_WriteHeader (rw : ResponseRecorder) (code : Z)
  : ResponseRecorder :=
  if wroteHeader rw then rw
  else {| Code := code; wroteHeader := true; BodyBytes := BodyBytes rw |}.

Definition Recorder_Write (rw : ResponseRecorder) (buf : list ascii)
  : ResponseRecorder * (Z * option string) :=
  let rw := if wroteHeader rw then rw else Recorder_WriteHeader rw 200 in
  ({| Code := Code rw; wroteHeader := wroteHeader rw;
      BodyBytes := BodyBytes rw ++ buf |},
   (Z.of_nat (length buf), None)).

#[export] Instance Recorder_ResponseWriter : ResponseWriter ResponseRecorder :=
  {| WriteHeader := Recorder_WriteHeader; Write := Recorder_Write |}.

End GoHTTP.

(* ===================================================================== *)
(** ** Package [deadline]                                                 *)
(* ===================================================================== *)

Module deadline.
Import GoTime GoContext GoHTTP.

(** *** config.go *)

Definition DefaultHeaderName : string := "Deadline".

Record config := {
  headerName : string;
  defaultTimeout : Duration;
  maxTimeout : Duration
}.

Definition newConfig : config :=
  {| headerName := DefaultHeaderName; defaultTimeout := 0; maxTimeout := 0 |}.

(** [type Option func(c)] for a pointer [c] to a [config]: an option
    updates the configuration it is handed. *)
Definition Option := config -> config.

Definition WithMaxTimeout (t : Duration) : Option := fun c =>
  {| headerName := headerName c; defaultTimeout := defaultTimeout c;
     maxTimeout := t |}.

Definition WithDefaultTimeout (t : Duration) : Option := fun c =>
  {| headerName := headerName c; defaultTimeout := t;
     maxTimeout := maxTimeout c |}.

Definition WithHeaderName (name : string) : Option := fun c =>
  {| headerName := name; defaultTimeout := defaultTimeout c;
     maxTimeout := maxTimeout c |}.

(** The loop [for _, o := range opts { o(cfg) }] of [Wrap] and
    [WrapClient]. *)
Definition applyOptions (opts : list Option) (c : config) : config :=
  fold_left (fun c o => o c) opts c.

Section Stages.

(** The state of the response writer and the result of a round trip
    (a response and an error) are opaque to the stages. *)
Variable ResponseWriter : Type.
Variable RoundTripResult : Type.

(** An [http.Handler], by its [ServeHTTP] method. *)
Definition Handler := ResponseWriter -> Request -> ResponseWriter.

(** An [http.RoundTripper], by its [RoundTrip] method. *)
Definition RoundTripper := Request -> RoundTripResult.

(** *** middleware.go *)

Record Middleware := { cfg : config; target : Handler }.

Definition Wrap (target : Handler) (opts : list Option) : Middleware :=
  {| cfg := applyOptions opts newConfig; target := target |}.

(** [(m *Middleware) ServeHTTP(w, r)]; [now] is the reading [time.Now()]
    returns inside the branch that resolves a deadline.  The deferred
    [cancel()] releases the derived context once the target has returned
    and leaves no trace in the writer. *)
Definition ServeHTTP (m : Middleware) (now : Time)
    (w : ResponseWriter) (r : Request) : ResponseWriter :=
  let ctx := Context r in
  match Deadline ctx with
  | Some _ => target m w r
  | None =>
      let deadline := zeroTime in
      let incomingDeadline := Get (Header_ r) (headerName (cfg m)) in
      let deadline :=
        if negb (String.eqb incomingDeadline "") then
          match Parse incomingDeadline with
          | Some dl => dl
          | None => deadline
          end
        else deadline in
      let deadline :=
        if IsZero deadline && negb (defaultTimeout (cfg m) =? 0)
        then GoTime.Add now (defaultTimeout (cfg m))
        else deadline in
      if negb (IsZero deadline) then
        let deadline :=
          if negb (maxTimeout (cfg m) =? 0) then
            let maxDeadline := GoTime.Add now (maxTimeout (cfg m)) in
            if After deadline maxDeadline then maxDeadline else deadline
          else deadline in
        let ctx := WithDeadline ctx deadline in
        let r := WithContext r ctx in
        target m w r
      else target m w r
  end.

(** *** The client stage *)

Record Transport := { RoundTripper_ : RoundTripper; tcfg : config }.

(** [(t *Transport) RoundTrip(r)]; [now] is the reading of [time.Now()]. *)
Definition RoundTrip (t : Transport) (now : Time) (r : Request)
  : RoundTripResult :=
  let deadline :=
    match Deadline (Context r) with
    | Some dl => dl
    | None =>
        if negb (defaultTimeout (tcfg t) =? 0)
        then GoTime.Add now (defaultTimeout (tcfg t))
        else zeroTime
    end in
  if negb (IsZero deadline) then
    let deadline :=
      if negb (maxTimeout (tcfg t) =? 0) then
        let maxDeadline := GoTime.Add now (maxTimeout (tcfg t)) in
        if After deadline maxDeadline then maxDeadline else deadline
      else deadline in
    let r := HeaderAdd r (headerName (tcfg t)) (Format deadline RFC3339Nano) in
    RoundTripper_ t r
  else RoundTripper_ t r.

(** An [http.Client], by its [Transport] field. *)
Record Client := { ClientTransport : RoundTripper }.

(** [WrapClient(c, opts...)] builds the transport that it installs as
    [c.Transport]; the client calls its [RoundTrip] with the clock reading
    of each call. *)
Definition WrapClient (c : Client) (opts : list Option) : Transport :=
  {| RoundTripper_ := ClientTransport c;
     tcfg := applyOptions opts newConfig |}.

End Stages.

Arguments cfg {ResponseWriter} _.
Arguments target {ResponseWriter} _.
Arguments Wrap {ResponseWriter} _ _.
Arguments ServeHTTP {ResponseWriter} _ _ _ _.
Arguments RoundTripper_ {RoundTripResult} _.
Arguments tcfg {RoundTripResult} _.
Arguments RoundTrip {RoundTripResult} _ _ _.
Arguments WrapClient {RoundTripResult} _ _.

End deadline.

(* ===================================================================== *)
(** ** Package [logging]                                                  *)
(* ===================================================================== *)

Module logging.
Import GoTime GoContext GoHTTP.

(** [slog.Level]. *)
Definition LevelInfo := 0.
Definition LevelError := 8.

(** [slog.Attr], with the kinds of value the stage logs. *)
Inductive Value :=
| IntValue (n : Z)
| StringValue (s : string)
| DurationValue (d : Duration).

Definition Attr : Type := string * Value.

(** One call of [logger.LogAttrs(ctx, level, msg, attrs...)]. *)
Record Record_ := { level : Z; msg : string; attrs : list Attr }.

(** The verb [%d] of [fmt.Sprintf]. *)
Definition formatInt (n : Z) : string :=
  string_of_list_ascii (appendInt [] n 0).

(** A handler, seen from the writer it is handed: the calls it makes on
    the writer, in their order, for a given request. *)
Inductive WriterCall :=
| CallWriteHeader (code : Z)
| CallWrite (data : list ascii).

Definition HandlerFunc := Request -> list WriterCall.

Definition call {W} `{ResponseWriter W} (w : W) (c : WriterCall) : W :=
  match c with
  | CallWriteHeader code => WriteHeader w code
  | CallWrite data => fst (Write w data)
  end.

(** [h.ServeHTTP(w, r)] for a handler [h]. *)
Definition serve {W} `{ResponseWriter W} (h : HandlerFunc) (w : W)
    (r : Request) : W :=
  fold_left call (h r) w.

Section Stage.

Context {W : Type} `{ResponseWriter W}.

(** [wrappedWriter] embeds the writer it wraps and records a status. *)
Record wrappedWriter := { ResponseWriter_ : W; status : Z }.

Definition wrappedWriter_WriteHeader (w : wrappedWriter) (code : Z)
  : wrappedWriter :=
  let w := {| ResponseWriter_ := ResponseWriter_ w; status := code |} in
  {| ResponseWriter_ := WriteHeader (ResponseWriter_ w) code;
     status := status w |}.

Definition wrappedWriter_Write (w : wrappedWriter) (data : list ascii)
  : wrappedWriter * (Z * option string) :=
  let w :=
    if status w =? 0
    then {| ResponseWriter_ := ResponseWriter_ w; status := StatusOK |}
    else w in
  let '(inner, res) := Write (ResponseWriter_ w) data in
  ({| ResponseWriter_ := inner; status := status w |}, res).

#[export] Instance wrappedWriter_ResponseWriter : ResponseWriter wrappedWriter :=
  {| WriteHeader := wrappedWriter_WriteHeader; Write := wrappedWriter_Write |}.

Definition ContextExtractor := Ctx -> list Attr.

Definition Leveler := Z -> Z.

Definition defaultLeveler : Leveler := fun status =>
  if status >=? 500 then LevelError else LevelInfo.

(** The target is an [http.Handler]; the stage tells an [http.ServeMux],
    which resolves a request to a handler and the pattern it matched, from
    any other handler. *)
Inductive Target :=
| ServeMux (Handler : Request -> HandlerFunc * string)
| OtherHandler (h : HandlerFunc).

Record Middleware := {
  target : Target;
  leveler : Leveler;
  filteredPaths : gset string;
  filteredRoutes : gset string;
  extractors : list ContextExtractor
}.

Definition Option := Middleware -> Middleware.

Definition WithPathFilter (paths : list string) : Option := fun mw =>
  {| target := target mw; leveler := leveler mw;
     filteredPaths := fold_left (fun s path => {[ path ]} ∪ s) paths (filteredPaths mw);
     filteredRoutes := filteredRoutes mw; extractors := extractors mw |}.

Definition WithRouteFilter (routes : list string) : Option := fun mw =>
  {| target := target mw; leveler := leveler mw;
     filteredPaths := filteredPaths mw;
     filteredRoutes := fold_left (fun s route => {[ route ]} ∪ s) routes (filteredRoutes mw);
     extractors := extractors mw |}.

Definition WithContextExtractors (fns : list ContextExtractor) : Option :=
  fun mw =>
  {| target := target mw; leveler := leveler mw;
     filteredPaths := filteredPaths mw; filteredRoutes := filteredRoutes mw;
     extractors := extractors mw ++ fns |}.

Definition WithLeveler (fn : Leveler) : Option := fun mw =>
  {| target := target mw; leveler := fn;
     filteredPaths := filteredPaths mw; filteredRoutes := filteredRoutes mw;
     extractors := extractors mw |}.

(** [Wrap(h, opts...)]; the logger is the sink of the records and is not
    part of the model. *)
Definition Wrap (h : Target) (opts : list Option) : Middleware :=
  fold_left (fun m o => o m) opts
    {| target := h; leveler := defaultLeveler; filteredPaths := ∅;
       filteredRoutes := ∅; extractors := [] |}.

Definition filterPath (m : Middleware) (path : string) : bool :=
  bool_decide (path ∈ filteredPaths m).

Definition filterRoute (m : Middleware) (route : string) : bool :=
  bool_decide (route ∈ filteredRoutes m).

(** [(m *Middleware) ServeHTTP(w, r)]: the writer after the target has
    run, and the record the deferred function logs, if it logs one;
    [elapsed] is the reading of [time.Since(start)]. *)
Definition ServeHTTP (m : Middleware) (elapsed : Duration) (w : W)
    (r : Request) : W * option Record_ :=
  let ww := {| ResponseWriter_ := w; status := 0 |} in
  let '(ww, route) :=
    match target m with
    | ServeMux Handler =>
        let '(handler, pattern) := Handler r in
        (serve handler ww r, pattern)
    | OtherHandler h => (serve h ww r, "")
    end in
  let logged :=
    if filterPath m (Path r)
       || (negb (String.eqb route "") && filterRoute m route)
    then None
    else
      let ctx := Context r in
      let attrs :=
        [ ("http.status_code", IntValue (status ww));
          ("http.path", StringValue (Path r));
          ("http.method", StringValue (Method r));
          ("duration", DurationValue elapsed) ] in
      let attrs :=
        if negb (String.eqb route "")
        then attrs ++ [("http.route", StringValue route)]
        else attrs in
      let attrs :=
        fold_left (fun attrs fn => attrs ++ fn ctx) (extractors m) attrs in
      Some {| level := leveler m (status ww);
              msg := Method r +:+ " " +:+ Path r +:+ " ["
                     +:+ formatInt (status ww) +:+ "]";
              attrs := attrs |} in
  (ResponseWriter_ ww, logged).

End Stage.

End logging.

(* ===================================================================== *)
(** ** Package [otelextractor]                                            *)
(* ===================================================================== *)

Module otelextractor.
Import GoContext.

(** [slog.Attr], with the kinds of value the extractor builds: the string
    of [slog.String] and the group of [slog.Group]. *)
Inductive Attr :=
| StringAttr (key value : string)
| GroupAttr (key : string) (args : list Attr).

(** [Options] allows changing the attribute keys used by the extractor. *)
Record Options := { Group : string; TraceID : string; SpanID : string }.

Section Extractor.

(** The span context of OpenTelemetry's package [trace] is opaque to the
    extractor: it is read from the context, tested with [IsValid], and its
    two identifiers are printed with [String]. *)
Variable SpanContext : Type.
Variable SpanContextFromContext : Ctx -> SpanContext.
Variable IsValid : SpanContext -> bool.
Variable TraceIDString : SpanContext -> string.
Variable SpanIDString : SpanContext -> string.

(** [New(opts)]; [None] stands for a nil pointer. *)
Definition New (opts : option Options) : Ctx -> list Attr :=
  let opts :=
    match opts with
    | Some o => o
    | None => {| Group := ""; TraceID := ""; SpanID := "" |}
    end in
  let groupName := "" in
  let groupName :=
    if negb (String.eqb (Group opts) "") then Group opts else groupName in
  let traceIDName := "trace_id" in
  let traceIDName :=
    if negb (String.eqb (TraceID opts) "") then TraceID opts
    else traceIDName in
  let spanIDName := "span_id" in
  let spanIDName :=
    if negb (String.eqb (SpanID opts) "") then SpanID opts else spanIDName in
  fun ctx =>
    let sc := SpanContextFromContext ctx in
    let attrs : list Attr := [] in
    if IsValid sc then
      let traceID := StringAttr traceIDName (TraceIDString sc) in
      let spanID := StringAttr spanIDName (SpanIDString sc) in
      if negb (String.eqb groupName "")
      then attrs ++ [GroupAttr groupName [traceID; spanID]]
      else attrs ++ [traceID; spanID]
    else attrs.

End Extractor.

End otelextractor.

(* ===================================================================== *)
(** ** Vocabulary of the specification                                    *)
(* ===================================================================== *)

Module Spec.
Import GoTime GoContext GoHTTP.

(** A reading of [time.Now()]: the wall clock is at or after the Unix
    epoch. *)
Definition clockReading (now : Time) : Prop :=
  unixToInternal * 1000000000 <= ns now.

(** The earlier of two times, the first one on a tie. *)
Definition earliest (t u : Time) : Time :=
  if ns t <=? ns u then t else u.

(** Clamping a candidate to [now + maxTimeout], for a configured (non-zero)
    maximum. *)
Definition clampTo (maxTimeout : Duration) (now candidate : Time) : Time :=
  if maxTimeout =? 0 then candidate
  else earliest candidate (GoTime.Add now maxTimeout).

(** A target that hands back the request it is called with, to observe
    what a server stage delegates. *)
Definition observe : deadline.Handler Request := fun _ r => r.

(** A round tripper that hands back the request it is called with. *)
Definition observeTrip : deadline.RoundTripper Request := fun r => r.

(** The calls that build the options of package [deadline]. *)
Inductive OptionCall :=
| CallWithMaxTimeout (t : Duration)
| CallWithDefaultTimeout (t : Duration)
| CallWithHeaderName (name : string).

Definition optionOf (c : OptionCall) : deadline.Option :=
  match c with
  | CallWithMaxTimeout t => deadline.WithMaxTimeout t
  | CallWithDefaultTimeout t => deadline.WithDefaultTimeout t
  | CallWithHeaderName name => deadline.WithHeaderName name
  end.

(** The header name a sequence of option calls configures, starting from
    [name]: the one of the last [WithHeaderName]. *)
Fixpoint configuredName (name : string) (calls : list OptionCall) : string :=
  match calls with
  | [] => name
  | CallWithHeaderName name' :: calls' => configuredName name' calls'
  | _ :: calls' => configuredName name calls'
  end.

(** A request as [httptest.NewRequest(http.MethodGet, "/", nil)] builds
    it, with the given header values and context deadline. *)
Definition newRequest (h : Header) (d : option Time) : Request :=
  {| Context := {| Deadline := d |}; Header_ := h;
     Method := "GET"; Path := "/"; Body := "" |}.

(** A clock reading used in the examples: 2029-12-31T23:59:50.0000005Z. *)
Definition exampleNow : Time := unixTime 1893455990 500 UTC.

(** The first half of [absDate]: the year and the day within the year. *)
Definition yearDay (abs : Z) : Z * Z :=
  let d := abs / secondsPerDay in
  let n := d / daysPer400Years in
  let y := 400 * n in
  let d := d - daysPer400Years * n in
  let n := d / daysPer100Years in
  let n := n - Z.shiftr n 2 in
  let y := y + 100 * n in
  let d := d - daysPer100Years * n in
  let n := d / daysPer4Years in
  let y := y + 4 * n in
  let d := d - daysPer4Years * n in
  let n := d / 365 in
  let n := n - Z.shiftr n 2 in
  let y := y + n in
  let d := d - 365 * n in
  (y + absoluteZeroYear, d).

(** The second half of [absDate]: the month and the day of the month. *)
Definition monthDay (leap : bool) (yday : Z) : Z * Z :=
  let day := yday in
  if leap && (day =? 31 + 29 - 1) then (February, 29)
  else
    let day := if leap && (day >? 31 + 29 - 1) then day - 1 else day in
    let month := day / 31 in
    let end_ := daysBeforeAt (month + 1) in
    let '(month, begin) :=
      if day >=? end_ then (month + 1, end_) else (month, daysBeforeAt month) in
    (month + 1, day - begin + 1).

(** The check of [monthDay] against [Date], for one day of the year. *)
Definition monthDayCheck (leap : bool) (k : nat) : bool :=
  let yday := Z.of_nat k in
  let '(month, day) := monthDay leap yday in
  (1 <=? month) && (month <=? 12) && (1 <=? day)
  && (day <=? (if (month =? February) && leap then 29
               else daysBeforeAt month - daysBeforeAt (month - 1)))
  && (day <=? 31)
  && (daysBeforeAt (month - 1)
      + (if leap && (month >=? March) then 1 else 0) + (day - 1) =? yday).

(** The fraction and the zone designator that [appendFormatRFC3339]
    writes, on their own. *)
Definition fracText (nanosec : Z) : list ascii := appendNano [] nanosec.

Definition zoneText (offset : Z) : list ascii :=
  if offset =? 0 then ["Z"%char]
  else
    let zone := Z.quot offset 60 in
    let '(b, zone) :=
      if zone <? 0 then (["-"%char], - zone) else (["+"%char], zone) in
    let b := appendInt b (zone / 60) 2 in
    let b := b ++ [":"%char] in
    appendInt b (zone mod 60) 2.

(** The times the RFC 3339 layouts can carry: a year of four digits in the
    zone of the time, and a zone offset of whole minutes, of 24 hours and
    59 minutes at most. *)
Definition inRFC3339Range (t : Time) : Prop :=
  exists offset abs year month day,
    locabs t = (offset, abs)
    /\ absDate abs = (year, month, day)
    /\ 0 <= year <= 9999
    /\ offset mod 60 = 0
    /\ -90000 < offset < 90000.

(** Times used in the examples: 2030-01-01T00:00:00Z, a time in a zone
    five and a half hours west of UTC, the first instant of the year
    10000, and a time in a zone thirty seconds east of UTC. *)
Definition time2030 : Time := Date 2030 1 1 0 0 0 0.

Definition zonedTime : Time :=
  unixTime 1893455990 123456000 (FixedZone (-19800)).

Definition year10000 : Time := Date 10000 1 1 0 0 0 0.

Definition oddZoneTime : Time := unixTime 1893455990 0 (FixedZone 30).

(** A server stage and a client stage with [maxTimeout] set, in front of
    the observing target and transport. *)
Definition clampedServer : deadline.Middleware Request :=
  deadline.Wrap observe [deadline.WithMaxTimeout (3 * Second)].

Definition clampedClient : deadline.Transport Request :=
  deadline.WrapClient {| deadline.ClientTransport := observeTrip |}
    [deadline.WithMaxTimeout (2 * Second)].

Definition defaultServer : deadline.Middleware Request :=
  deadline.Wrap observe [].

Definition timeoutServer : deadline.Middleware Request :=
  deadline.Wrap observe
    [deadline.WithDefaultTimeout (3 * Second);
     deadline.WithMaxTimeout (1 * Second)].

Definition timeoutClient : deadline.Transport Request :=
  deadline.WrapClient {| deadline.ClientTransport := observeTrip |}
    [deadline.WithDefaultTimeout (3 * Second)].

(** Requests without a context deadline: with a second-precision header
    value, with the zero time as header value, with a header value that
    does not parse, and without any header. *)
Definition request2030 : Request :=
  newRequest (GoHTTP.Add ∅ "Deadline" "2030-01-01T00:00:00Z") None.

Definition requestZero : Request :=
  newRequest (GoHTTP.Add ∅ "Deadline" "0001-01-01T00:00:00Z") None.

Definition requestGarbled : Request :=
  newRequest (GoHTTP.Add ∅ "Deadline" "tomorrow") None.

Definition requestPlain : Request := newRequest ∅ None.

(** Requests under a context whose deadline is 10 s after [exampleNow],
    and under one whose deadline is the zero time. *)
Definition requestWithDeadline : Request :=
  newRequest (GoHTTP.Add ∅ "Deadline" "2030-01-01T00:00:00Z")
    (Some (GoTime.Add exampleNow (10 * Second))).

Definition requestZeroDeadline : Request := newRequest ∅ (Some zeroTime).

(** Does a call of the handler set a status code explicitly, and does it
    write body data. *)
Definition setsStatus (c : logging.WriterCall) : bool :=
  match c with
  | logging.CallWriteHeader _ => true
  | logging.CallWrite _ => false
  end.

Definition writesBody (c : logging.WriterCall) : bool :=
  match c with
  | logging.CallWrite _ => true
  | logging.CallWriteHeader _ => false
  end.

(** The handler the access-log stage runs for a request. *)
Definition handlerOf (m : logging.Middleware) (r : Request)
  : logging.HandlerFunc :=
  match logging.target m with
  | logging.ServeMux Handler => fst (Handler r)
  | logging.OtherHandler h => h
  end.

(** A handler that writes body data and nothing else, and one that starts
    writing and then reports a failure with [WriteHeader(500)]. *)
Definition writeOnly : logging.HandlerFunc := fun _ =>
  [logging.CallWrite (list_ascii_of_string "you did it!")].

Definition writeThenFail : logging.HandlerFunc := fun _ =>
  [logging.CallWrite (list_ascii_of_string "partial");
   logging.CallWriteHeader 500].

End Spec.

(* ===================================================================== *)
(** ** Vocabulary of the further properties                               *)
(* ===================================================================== *)

Module Coverage.
Import GoTime GoContext GoHTTP Spec.

(** The timeouts a sequence of option calls configures, starting from
    [d]: the ones of the last [WithDefaultTimeout] and of the last
    [WithMaxTimeout]. *)
Fixpoint configuredDefault (d : Duration) (calls : list OptionCall)
  : Duration :=
  match calls with
  | [] => d
  | CallWithDefaultTimeout d' :: calls' => configuredDefault d' calls'
  | _ :: calls' => configuredDefault d calls'
  end.

Fixpoint configuredMax (d : Duration) (calls : list OptionCall) : Duration :=
  match calls with
  | [] => d
  | CallWithMaxTimeout d' :: calls' => configuredMax d' calls'
  | _ :: calls' => configuredMax d calls'
  end.

(** The request as it reaches a server: the header collection and the rest
    of the request the client sent, under a fresh context. *)
Definition received (sent : Request) : Request :=
  WithContext sent Background.

(** The calls that build the options of package [logging]. *)
Inductive LogOptionCall :=
| CallWithPathFilter (paths : list string)
| CallWithRouteFilter (routes : list string)
| CallWithContextExtractors (fns : list logging.ContextExtractor)
| CallWithLeveler (fn : logging.Leveler).

Definition logOptionOf (c : LogOptionCall) : logging.Option :=
  match c with
  | CallWithPathFilter paths => logging.WithPathFilter paths
  | CallWithRouteFilter routes => logging.WithRouteFilter routes
  | CallWithContextExtractors fns => logging.WithContextExtractors fns
  | CallWithLeveler fn => logging.WithLeveler fn
  end.

(** The extractors and the leveler a sequence of option calls configures. *)
Fixpoint configuredExtractors (calls : list LogOptionCall)
  : list logging.ContextExtractor :=
  match calls with
  | [] => []
  | CallWithContextExtractors fns :: calls' =>
      fns ++ configuredExtractors calls'
  | _ :: calls' => configuredExtractors calls'
  end.

Fixpoint configuredLeveler (fn : logging.Leveler) (calls : list LogOptionCall)
  : logging.Leveler :=
  match calls with
  | [] => fn
  | CallWithLeveler fn' :: calls' => configuredLeveler fn' calls'
  | _ :: calls' => configuredLeveler fn calls'
  end.

(** The pattern the access-log stage records as the route of a request. *)
Definition routeOf (m : logging.Middleware) (r : Request) : string :=
  match logging.target m with
  | logging.ServeMux Handler => snd (Handler r)
  | logging.OtherHandler _ => ""
  end.

(** The status the wrapped writer holds once the handler has run. *)
Definition capturedStatus {W} `{ResponseWriter W} (m : logging.Middleware)
    (w : W) (r : Request) : Z :=
  logging.status
    (@logging.serve _ logging.wrappedWriter_ResponseWriter (handlerOf m r)
       {| logging.ResponseWriter_ := w; logging.status := 0 |} r).

(** The strings an attribute carries, with their keys, groups opened. *)
Fixpoint leaves (a : otelextractor.Attr) : list (string * string) :=
  match a with
  | otelextractor.StringAttr key value => [(key, value)]
  | otelextractor.GroupAttr _ args => flat_map leaves args
  end.

(** The keys of an attribute: its own and those inside a group. *)
Fixpoint keysOf (a : otelextractor.Attr) : list string :=
  match a with
  | otelextractor.StringAttr key _ => [key]
  | otelextractor.GroupAttr key args => key :: flat_map keysOf args
  end.

(** A handler that sets 404 and then 201, and writes. *)
Definition setTwice : logging.HandlerFunc := fun _ =>
  [logging.CallWriteHeader 404; logging.CallWriteHeader 201;
   logging.CallWrite (list_ascii_of_string "created")].

(** A handler that returns without touching the writer. *)
Definition silent : logging.HandlerFunc := fun _ => [].

(** A request multiplexer that resolves every request to the writing
    handler under one pattern, an extractor that reports a request id, and
    a stage over the two. *)
Definition itemsMux : logging.Target :=
  logging.ServeMux (fun _ => (writeOnly, "GET /items/{id}")).

Definition requestID : logging.ContextExtractor := fun _ =>
  [("request_id", logging.StringValue "42")].

Definition itemsStage : logging.Middleware :=
  logging.Wrap itemsMux [logging.WithContextExtractors [requestID]].



(** A request that already carries a value under the deadline header, in
    a context whose deadline is 10 s after [exampleNow]. *)
Definition requestStale : Request :=
  newRequest (GoHTTP.Add ∅ "Deadline" "1999-01-01T00:00:00Z")
    (Some (GoTime.Add exampleNow (10 * Second))).

(** A request without headers in a context whose deadline is 10 s after
    [exampleNow]. *)
Definition requestFresh : Request :=
  newRequest ∅ (Some (GoTime.Add exampleNow (10 * Second))).

(** A client stage without options and a server stage with a default
    timeout only. *)
Definition plainClient : deadline.Transport Request :=
  deadline.WrapClient {| deadline.ClientTransport := observeTrip |} [].

Definition defaultOnlyServer : deadline.Middleware Request :=
  deadline.Wrap observe [deadline.WithDefaultTimeout (3 * Second)].

End Coverage.

Import GoTime GoContext GoHTTP deadline Spec.

(* ===================================================================== *)
(** ** The RFC 3339 layouts: formatting and parsing                       *)
(* ===================================================================== *)

Ltac digit_cases d :=
  let H := fresh in
  assert (H : d = 0 \/ d = 1 \/ d = 2 \/ d = 3 \/ d = 4 \/ d = 5 \/ d = 6
              \/ d = 7 \/ d = 8 \/ d = 9) by lia;
  repeat (destruct H as [H | H]); subst d.

Lemma isDigitByte_digitByte (d : Z) :
  0 <= d <= 9 -> isDigitByte (digitByte d) = true.
Proof. intros Hd. digit_cases d; reflexivity. Qed.

Lemma digitVal_digitByte (d : Z) : 0 <= d <= 9 -> digitVal (digitByte d) = d.
Proof. intros Hd. digit_cases d; reflexivity. Qed.

Lemma digitByte_not_sign (d : Z) :
  0 <= d <= 9 ->
  Ascii.eqb (digitByte d) "-" || Ascii.eqb (digitByte d) "+" = false.
Proof. intros Hd. digit_cases d; reflexivity. Qed.

Lemma digitByte_zero (d : Z) :
  0 <= d <= 9 -> Ascii.eqb (digitByte d) "0" = (d =? 0).
Proof. intros Hd. digit_cases d; reflexivity. Qed.

Lemma mod10_digit (u : Z) : 0 <= u mod 10 <= 9.
Proof. pose proof (Z.mod_pos_bound u 10). lia. Qed.

Lemma pow10_succ (k : nat) : 10 ^ Z.of_nat (S k) = 10 * 10 ^ Z.of_nat k.
Proof. rewrite Nat2Z.inj_succ, Z.pow_succ_r by lia. reflexivity. Qed.

Lemma pow10_pos (k : nat) : 0 < 10 ^ Z.of_nat k.
Proof. apply Z.pow_pos_nonneg; lia. Qed.

Lemma div10_bound (k : nat) (u : Z) :
  0 <= u < 10 ^ Z.of_nat (S k) -> 0 <= u / 10 < 10 ^ Z.of_nat k.
Proof.
  rewrite pow10_succ. intros Hu. split.
  - apply Z.div_pos; lia.
  - apply Z.div_lt_upper_bound; lia.
Qed.

Lemma length_decimal (k : nat) (u : Z) : length (decimal k u) = k.
Proof.
  revert u. induction k as [|k IH]; intros u; [reflexivity|].
  simpl. rewrite length_app, IH. simpl. lia.
Qed.

Lemma decimal_zero (j : nat) : decimal j 0 = repeat "0"%char j.
Proof.
  induction j as [|j IH]; [reflexivity|].
  cbn [decimal]. change (0 / 10) with 0. rewrite IH.
  change (digitByte (0 mod 10)) with "0"%char.
  symmetry. apply repeat_cons.
Qed.

Lemma decimal_pad (k j : nat) (u : Z) :
  0 <= u < 10 ^ Z.of_nat k ->
  decimal (j + k) u = repeat "0"%char j ++ decimal k u.
Proof.
  revert u. induction k as [|k IH]; intros u Hu.
  - assert (u = 0) by (simpl in Hu; lia). subst u.
    rewrite Nat.add_0_r, app_nil_r. apply decimal_zero.
  - rewrite Nat.add_succ_r. cbn [decimal].
    rewrite (IH (u / 10)) by (apply div10_bound; exact Hu).
    rewrite app_assoc. reflexivity.
Qed.

(** The digits [appendInt] counts are enough to write the number. *)
Lemma countDigits_spec (k fuel : nat) (u : Z) (n : nat) :
  0 <= u < 10 ^ Z.of_nat k -> (k <= fuel)%nat ->
  exists j, countDigits fuel u n = (n + j)%nat /\ (j <= k)%nat
            /\ u < 10 ^ Z.of_nat j /\ (0 < u -> (0 < j)%nat).
Proof.
  revert fuel u n. induction k as [|k IH]; intros fuel u n Hu Hfuel.
  - assert (u = 0) by (simpl in Hu; lia). subst u. exists 0%nat.
    split; [|split; [lia | split; [reflexivity | lia]]].
    destruct fuel; simpl; lia.
  - destruct fuel as [|fuel]; [lia|]. cbn [countDigits].
    destruct (Z.gtb_spec u 0) as [Hpos | Hzero].
    + destruct (IH fuel (u / 10) (S n)) as [j [Hc [Hj [Hlt _]]]].
      { apply div10_bound; exact Hu. }
      { lia. }
      exists (S j). split; [rewrite Hc; lia|]. split; [lia|]. split; [|lia].
      rewrite pow10_succ.
      pose proof (Z.div_mod u 10 ltac:(lia)). pose proof (mod10_digit u). lia.
    + exists 0%nat. split; [lia|]. split; [lia|]. split; [simpl; lia | lia].
Qed.

Lemma appendInt_decimal (b : list ascii) (u : Z) (w : nat) :
  (1 <= w <= 20)%nat -> 0 <= u < 10 ^ Z.of_nat w ->
  appendInt b u w = b ++ decimal w u.
Proof.
  intros Hw Hu. unfold appendInt.
  destruct (Z.ltb_spec u 0) as [Hneg | _]; [lia|]. f_equal.
  destruct (Z.eqb_spec u 0) as [-> | Hne].
  - destruct (countDigits_spec w 20 0 1 ltac:(pose proof (pow10_pos w); lia)
                ltac:(lia)) as [j [Hc _]].
    assert (Hc1 : countDigits 20 0 1 = 1%nat) by reflexivity.
    rewrite Hc1. replace w with ((w - 1) + 1)%nat at 2 by lia.
    apply eq_sym, decimal_pad. simpl. lia.
  - destruct (countDigits_spec w 20 u 0 Hu ltac:(lia)) as [j [Hc [Hj [Hlt Hpos]]]].
    rewrite Hc. simpl Nat.add.
    replace w with ((w - j) + j)%nat at 2 by lia.
    apply eq_sym, decimal_pad. lia.
Qed.

Lemma decimal_head (k : nat) (u : Z) :
  exists d tl, decimal (S k) u = digitByte d :: tl /\ 0 <= d <= 9.
Proof.
  revert u. induction k as [|k IH]; intros u.
  - exists (u mod 10), []. split; [reflexivity | apply mod10_digit].
  - destruct (IH (u / 10)) as [d [tl [Hd Hr]]].
    exists d, (tl ++ [digitByte (u mod 10)]).
    split; [|exact Hr]. change (decimal (S (S k)) u)
      with (decimal (S k) (u / 10) ++ [digitByte (u mod 10)]).
    rewrite Hd. reflexivity.
Qed.

Lemma leadingInt_decimal (k : nat) (u : Z) (rest : list ascii) (x : Z) :
  0 <= u < 10 ^ Z.of_nat k -> 0 <= x ->
  x * 10 ^ Z.of_nat k + u < 10 ^ 18 ->
  leadingInt (decimal k u ++ rest) x
  = leadingInt rest (x * 10 ^ Z.of_nat k + u).
Proof.
  revert u rest x. induction k as [|k IH]; intros u rest x Hu Hx Hbound.
  - assert (u = 0) by (simpl in Hu; lia). subst u. simpl.
    f_equal. lia.
  - cbn [decimal]. rewrite <- app_assoc.
    rewrite pow10_succ in Hbound.
    pose proof (Z.div_mod u 10 ltac:(lia)) as Hdm.
    pose proof (mod10_digit u) as Hm.
    pose proof (div10_bound k u Hu) as Hdiv.
    rewrite IH; [|exact Hdiv | exact Hx | lia].
    cbn [app leadingInt]. rewrite isDigitByte_digitByte by exact Hm.
    rewrite digitVal_digitByte by exact Hm.
    assert (H63 : 10 ^ 18 < 10 * (2 ^ 63 / 10)) by (vm_compute; reflexivity).
    assert (H63' : 10 ^ 18 < 2 ^ 63) by (vm_compute; reflexivity).
    destruct (Z.gtb_spec (x * 10 ^ Z.of_nat k + u / 10) (2 ^ 63 / 10)) as [Hgt | _];
      [lia|].
    destruct (Z.gtb_spec ((x * 10 ^ Z.of_nat k + u / 10) * 10 + u mod 10) (2 ^ 63))
      as [Hgt | _]; [lia|].
    f_equal. rewrite pow10_succ. lia.
Qed.

Lemma atoi_decimal (k : nat) (u : Z) :
  (k <= 17)%nat -> 0 <= u < 10 ^ Z.of_nat (S k) ->
  atoi (decimal (S k) u) = Some u.
Proof.
  intros Hk Hu. unfold atoi.
  destruct (decimal_head k u) as [d [tl [Hd Hr]]].
  assert (Hle : 10 ^ Z.of_nat (S k) <= 10 ^ 18)
    by (apply Z.pow_le_mono_r; lia).
  assert (H63 : 10 ^ 18 < 2 ^ 63) by (vm_compute; reflexivity).
  rewrite Hd, (digitByte_not_sign d Hr), <- Hd.
  rewrite <- (app_nil_r (decimal (S k) u)).
  rewrite leadingInt_decimal by lia.
  cbn [leadingInt]. rewrite Z.mul_0_l, Z.add_0_l.
  destruct (Z.ltb_spec u (2 ^ 63)) as [_ | Hge]; [reflexivity | lia].
Qed.


Lemma absDate_split (abs : Z) :
  absDate abs =
    let '(year, yday) := yearDay abs in
    let '(month, day) := monthDay (isLeap year) yday in
    (year, month, day).
Proof.
  unfold absDate, yearDay, monthDay. cbv zeta.
  match goal with |- context [isLeap ?y && (?d =? _)] =>
    destruct (isLeap y && (d =? 31 + 29 - 1)); [reflexivity|] end.
  match goal with |- context [if ?c then (_, _) else (_, _)] =>
    destruct c; reflexivity end.
Qed.

Lemma rem_zero_mod (a b : Z) : 0 < b -> (Z.rem a b =? 0) = (a mod b =? 0).
Proof.
  intros Hb.
  destruct (Z.eqb_spec (Z.rem a b) 0) as [Hr | Hr];
    destruct (Z.eqb_spec (a mod b) 0) as [Hm | Hm]; try reflexivity; exfalso.
  - apply Hm. apply Z.mod_divide; [lia|]. apply Z.rem_divide; [lia | exact Hr].
  - apply Hr. apply Z.rem_divide; [lia|]. apply Z.mod_divide; [lia | exact Hm].
Qed.

Lemma isLeap_mod (year : Z) :
  isLeap year
  = (year mod 4 =? 0) && (negb (year mod 100 =? 0) || (year mod 400 =? 0)).
Proof. unfold isLeap. rewrite !rem_zero_mod by lia. reflexivity. Qed.

Lemma yearDay_spec (abs : Z) :
  let '(year, yday) := yearDay abs in
  daysSinceEpoch year + yday = abs / secondsPerDay
  /\ 0 <= yday < (if isLeap year then 366 else 365).
Proof.
  unfold yearDay, daysSinceEpoch. cbv zeta. rewrite isLeap_mod.
  unfold daysPer400Years, daysPer100Years, daysPer4Years, absoluteZeroYear.
  rewrite !Z.shiftr_div_pow2 by lia. change (2 ^ 2) with 4.
  generalize (abs / secondsPerDay). intros d.
  match goal with |- context [if ?c then 366 else 365] => destruct c eqn:Hleap end.
  - split; [Z.div_mod_to_equations; lia|].
    Z.div_mod_to_equations; lia.
  - apply andb_false_iff in Hleap.
    rewrite orb_false_iff, negb_false_iff, !Z.eqb_neq, Z.eqb_eq in Hleap.
    split; [Z.div_mod_to_equations; lia|].
    Z.div_mod_to_equations; lia.
Qed.

Lemma monthDay_checked (leap : bool) :
  forallb (monthDayCheck leap) (seq 0 (if leap then 366 else 365)) = true.
Proof. destruct leap; vm_compute; reflexivity. Qed.

Lemma monthDay_spec (leap : bool) (yday : Z) :
  0 <= yday < (if leap then 366 else 365) ->
  let '(month, day) := monthDay leap yday in
  1 <= month <= 12
  /\ 1 <= day <= (if (month =? February) && leap then 29
                  else daysBeforeAt month - daysBeforeAt (month - 1))
  /\ day <= 31
  /\ daysBeforeAt (month - 1)
     + (if leap && (month >=? March) then 1 else 0) + (day - 1) = yday.
Proof.
  intros Hy.
  pose proof (monthDay_checked leap) as Hall.
  rewrite forallb_forall in Hall.
  specialize (Hall (Z.to_nat yday)).
  assert (Hin : In (Z.to_nat yday) (seq 0 (if leap then 366 else 365))).
  { apply in_seq. destruct leap; lia. }
  specialize (Hall Hin). unfold monthDayCheck in Hall.
  rewrite Z2Nat.id in Hall by lia.
  destruct (monthDay leap yday) as [month day].
  rewrite !andb_true_iff, !Z.leb_le, Z.eqb_eq in Hall. lia.
Qed.

Lemma absClock_spec (abs : Z) :
  let '(hour, min, sec) := absClock abs in
  0 <= hour < 24 /\ 0 <= min < 60 /\ 0 <= sec < 60
  /\ hour * secondsPerHour + min * secondsPerMinute + sec
     = abs mod secondsPerDay.
Proof.
  unfold absClock, secondsPerDay, secondsPerHour, secondsPerMinute. cbv zeta.
  Z.div_mod_to_equations. lia.
Qed.

Lemma Date_ns (year month day hour min sec nsec : Z) :
  1 <= month <= 12 -> 0 <= hour < 24 -> 0 <= min < 60 -> 0 <= sec < 60 ->
  0 <= nsec < 1000000000 ->
  ns (Date year month day hour min sec nsec)
  = ((daysSinceEpoch year + daysBeforeAt (month - 1)
      + (if isLeap year && (month >=? March) then 1 else 0) + (day - 1))
     * secondsPerDay
     + (hour * secondsPerHour + min * secondsPerMinute + sec)
     + absoluteToInternal) * 1000000000 + nsec.
Proof.
  intros Hmonth Hhour Hmin Hsec Hnsec. unfold Date, norm, unixTime.
  cbv beta iota zeta.
  rewrite (Z.div_small (month - 1) 12), (Z.mod_small (month - 1) 12) by lia.
  rewrite (Z.div_small nsec), (Z.mod_small nsec) by lia.
  rewrite !Z.add_0_r.
  rewrite (Z.div_small sec 60), (Z.mod_small sec 60) by lia.
  rewrite !Z.add_0_r.
  rewrite (Z.div_small min 60), (Z.mod_small min 60) by lia.
  rewrite !Z.add_0_r.
  rewrite (Z.div_small hour 24), (Z.mod_small hour 24) by lia.
  rewrite !Z.add_0_r.
  replace (month - 1 + 1) with month by lia.
  cbn [ns]. unfold internalToUnix.
  destruct (isLeap year && (month >=? March)); lia.
Qed.

(** [Date] inverts [absDate] and [absClock]. *)
Lemma absDate_Date (abs nsec year month day hour min sec : Z) :
  0 <= nsec < 1000000000 ->
  absDate abs = (year, month, day) ->
  absClock abs = (hour, min, sec) ->
  1 <= month <= 12 /\ 1 <= day <= daysIn month year /\ day <= 31
  /\ 0 <= hour < 24 /\ 0 <= min < 60 /\ 0 <= sec < 60
  /\ ns (Date year month day hour min sec nsec)
     = (abs + absoluteToInternal) * 1000000000 + nsec.
Proof.
  intros Hnsec Hdate Hclk. rewrite absDate_split in Hdate.
  pose proof (yearDay_spec abs) as Hyd.
  destruct (yearDay abs) as [year' yday]. destruct Hyd as [Hdays Hyday].
  pose proof (monthDay_spec (isLeap year') yday Hyday) as Hmd.
  destruct (monthDay (isLeap year') yday) as [month' day'].
  injection Hdate as -> -> ->.
  destruct Hmd as [Hmonth [Hday [Hday31 Hsum]]].
  pose proof (absClock_spec abs) as Hclock. rewrite Hclk in Hclock.
  destruct Hclock as [Hhour [Hmin [Hsec Hclock]]].
  split; [exact Hmonth|]. split; [exact Hday|]. split; [exact Hday31|].
  split; [exact Hhour|]. split; [exact Hmin|]. split; [exact Hsec|].
  rewrite Date_ns by assumption.
  rewrite Hclock.
  replace (daysSinceEpoch year + daysBeforeAt (month - 1)
           + (if isLeap year && (month >=? March) then 1 else 0) + (day - 1))
    with (abs / secondsPerDay) by lia.
  pose proof (Z.div_mod abs secondsPerDay ltac:(unfold secondsPerDay, secondsPerHour, secondsPerMinute; lia)).
  lia.
Qed.


Arguments digitByte : simpl never.

Lemma decimal_2 (n : Z) :
  decimal 2 n = [digitByte (n / 10 mod 10); digitByte (n mod 10)].
Proof. reflexivity. Qed.

Lemma decimal_4 (n : Z) :
  decimal 4 n = [digitByte (n / 10 / 10 / 10 mod 10);
                 digitByte (n / 10 / 10 mod 10);
                 digitByte (n / 10 mod 10); digitByte (n mod 10)].
Proof. reflexivity. Qed.

Lemma appendInt_app (b : list ascii) (x : Z) (w : nat) :
  appendInt b x w = b ++ appendInt [] x w.
Proof.
  unfold appendInt. destruct (x <? 0).
  - rewrite <- app_assoc. reflexivity.
  - reflexivity.
Qed.

Lemma getnum_digits (n : Z) (rest : list ascii) (fixed : bool) :
  0 <= n < 100 ->
  getnum (digitByte (n / 10 mod 10) :: digitByte (n mod 10) :: rest) fixed
  = Some (n, rest).
Proof.
  intros Hn. unfold getnum, isDigit. cbn [nth_error nth skipn].
  rewrite !isDigitByte_digitByte by apply mod10_digit.
  rewrite !digitVal_digitByte by apply mod10_digit.
  cbn [negb]. f_equal. f_equal. Z.div_mod_to_equations. lia.
Qed.

Lemma digitRun_decimal (k : nat) (u : Z) (rest : list ascii) :
  digitRun (decimal k u ++ rest) = (k + digitRun rest)%nat.
Proof.
  revert u rest. induction k as [|k IH]; intros u rest; [reflexivity|].
  cbn [decimal]. rewrite <- app_assoc, IH. cbn [app digitRun].
  rewrite isDigitByte_digitByte by apply mod10_digit. lia.
Qed.

Lemma firstn_decimal (k : nat) (u : Z) (rest : list ascii) :
  firstn k (decimal k u ++ rest) = decimal k u.
Proof.
  rewrite firstn_app, length_decimal, Nat.sub_diag. cbn [firstn].
  rewrite app_nil_r. apply firstn_all2. rewrite length_decimal. lia.
Qed.

Lemma skipn_decimal (k : nat) (u : Z) (rest : list ascii) :
  skipn k (decimal k u ++ rest) = rest.
Proof.
  rewrite skipn_app, length_decimal, Nat.sub_diag. cbn [skipn].
  rewrite skipn_all2 by (rewrite length_decimal; lia). reflexivity.
Qed.

(** A number below [10^w] is some [m] that does not end in 0, followed by
    zeros. *)
Lemma trailing_zeros (w : nat) (n : Z) :
  0 < n < 10 ^ Z.of_nat w ->
  exists j k m,
    w = (S k + j)%nat /\ n = m * 10 ^ Z.of_nat j
    /\ 0 < m < 10 ^ Z.of_nat (S k) /\ m mod 10 <> 0
    /\ decimal w n = decimal (S k) m ++ repeat "0"%char j.
Proof.
  revert n. induction w as [|w IH]; intros n Hn; [simpl in Hn; lia|].
  destruct (Z.eq_dec (n mod 10) 0) as [Hz | Hnz].
  - pose proof (Z.div_mod n 10 ltac:(lia)) as Hdm.
    pose proof (div10_bound w n ltac:(lia)) as Hdiv.
    destruct (IH (n / 10) ltac:(lia)) as [j [k [m [Hw [Hm [Hr [Hlast Hdec]]]]]]].
    exists (S j), k, m. split; [lia|]. split; [rewrite pow10_succ; lia|].
    split; [exact Hr|]. split; [exact Hlast|].
    cbn [decimal]. rewrite Hdec, Hz, <- app_assoc. f_equal.
    change (digitByte 0) with "0"%char. symmetry. apply repeat_cons.
  - exists 0%nat, w, n. split; [lia|]. split; [simpl; lia|].
    split; [lia|]. split; [exact Hnz|]. cbn [repeat]. rewrite app_nil_r.
    reflexivity.
Qed.

Lemma dropWhileEq_rev_zeros (l : list ascii) (j : nat) :
  dropWhileEq "0"%char (rev (l ++ repeat "0"%char j))
  = dropWhileEq "0"%char (rev l).
Proof.
  induction j as [|j IH]; [rewrite app_nil_r; reflexivity|].
  cbn [repeat]. rewrite repeat_cons, app_assoc, rev_app_distr. cbn [rev app dropWhileEq].
  change (Ascii.eqb "0" "0") with true. cbv iota. exact IH.
Qed.

(** The fraction [appendNano] writes: nothing for a whole second, and
    otherwise the separator and the digits up to the last non-zero one. *)
Lemma appendNano_shape (n : Z) :
  0 < n < 1000000000 ->
  exists j k m,
    (S k + j = 9)%nat /\ n = m * 10 ^ Z.of_nat j
    /\ 0 < m < 10 ^ Z.of_nat (S k)
    /\ forall b, appendNano b n = b ++ "."%char :: decimal (S k) m.
Proof.
  intros Hn.
  destruct (trailing_zeros 9 n) as [j [k [m [Hw [Hm [Hr [Hlast Hdec]]]]]]].
  { change (10 ^ Z.of_nat 9) with 1000000000. lia. }
  exists j, k, m. split; [lia|]. split; [exact Hm|]. split; [exact Hr|].
  intros b.
  unfold appendNano. destruct (Z.eqb_spec n 0) as [Hz | _]; [lia|].
  rewrite appendInt_decimal;
    [| lia | change (10 ^ Z.of_nat 9) with 1000000000; lia].
  rewrite Hdec, app_assoc, dropWhileEq_rev_zeros.
  cbn [decimal]. rewrite app_assoc, rev_app_distr. cbn [rev app dropWhileEq].
  rewrite digitByte_zero by apply mod10_digit.
  destruct (Z.eqb_spec (m mod 10) 0) as [Hz | _]; [contradiction|].
  assert (Hdot : Ascii.eqb (digitByte (m mod 10)) "." = false).
  { pose proof (mod10_digit m) as Hd. revert Hd.
    generalize (m mod 10). intros d Hd. digit_cases d; reflexivity. }
  rewrite Hdot. cbn [rev]. rewrite rev_involutive, <- !app_assoc.
  reflexivity.
Qed.

Lemma appendNano_app (b : list ascii) (n : Z) :
  0 <= n < 1000000000 -> appendNano b n = b ++ fracText n.
Proof.
  intros Hn. unfold fracText. destruct (Z.eq_dec n 0) as [-> | Hnz].
  - unfold appendNano. simpl. rewrite app_nil_r. reflexivity.
  - destruct (appendNano_shape n ltac:(lia)) as [j [k [m [_ [_ [_ Hb]]]]]].
    rewrite (Hb b), (Hb []). reflexivity.
Qed.

(** The fraction reads back as the nanoseconds it was written from, in
    front of any text that starts like a zone designator. *)
Lemma parseFrac_fracText (n : Z) (zone : list ascii) :
  0 <= n < 1000000000 ->
  isDigit zone 0 = false ->
  commaOrPeriod (nth 0 zone "000"%char) = false ->
  parseFrac (fracText n ++ zone) = Some (n, zone).
Proof.
  intros Hn Hzd Hzc. destruct (Z.eq_dec n 0) as [-> | Hnz].
  - change (fracText 0) with (@nil ascii). cbn [app]. unfold parseFrac.
    rewrite Hzc. cbn [negb]. rewrite orb_true_r. reflexivity.
  - destruct (appendNano_shape n ltac:(lia)) as [j [k [m [Hw [Hm [Hr Hb]]]]]].
    unfold fracText. rewrite (Hb []). cbn [app]. unfold parseFrac.
    destruct (decimal_head k m) as [d [tl [Hd Hdr]]].
    assert (Hlen : (length ("."%char :: decimal (S k) m ++ zone) <? 2)%nat
                   = false).
    { apply Nat.ltb_ge. cbn [length]. rewrite length_app, length_decimal. lia. }
    rewrite Hlen. cbn [nth]. change (commaOrPeriod ".") with true.
    assert (Hd1 : isDigit ("."%char :: decimal (S k) m ++ zone) 1 = true).
    { rewrite Hd. unfold isDigit. cbn [nth_error app].
      apply isDigitByte_digitByte. exact Hdr. }
    rewrite Hd1. cbn [negb orb skipn]. rewrite !skipn_O.
    rewrite digitRun_decimal.
    assert (Hrun : digitRun zone = 0%nat).
    { destruct zone as [|c zone]; [reflexivity|].
      unfold isDigit in Hzd. cbn [nth_error] in Hzd. cbn [digitRun].
      rewrite Hzd. reflexivity. }
    rewrite Hrun, Nat.add_0_r.
    unfold parseNanoseconds. cbn [nth]. change (commaOrPeriod ".") with true.
    cbn [negb].
    assert (H10 : (10 <? 1 + S k)%nat = false) by (apply Nat.ltb_ge; lia).
    rewrite H10.
    change (1 + S k)%nat with (S (S k)). cbn [firstn skipn].
    rewrite skipn_O, firstn_decimal, atoi_decimal by lia.
    cbn [mbind option_bind].
    destruct (Z.ltb_spec m 0) as [Hneg | _]; [lia|].
    rewrite skipn_decimal. cbn [mbind option_bind].
    replace (10 - S (S k))%nat with j by lia. rewrite <- Hm. reflexivity.
Qed.

Lemma zoneText_head (offset : Z) :
  isDigit (zoneText offset) 0 = false
  /\ commaOrPeriod (nth 0 (zoneText offset) "000"%char) = false.
Proof.
  unfold zoneText. destruct (offset =? 0); [split; reflexivity|].
  cbv zeta. destruct (Z.quot offset 60 <? 0);
    rewrite appendInt_app, (appendInt_app [_]); cbn [app];
    split; reflexivity.
Qed.

(** The zone designator reads back as the offset it was written from, for
    an offset of whole minutes. *)
Lemma parseZone_zoneText (offset : Z) :
  offset mod 60 = 0 -> -90000 < offset < 90000 ->
  parseZone (zoneText offset)
  = Some (if offset =? 0 then (Some UTC, -1, []) else (None, offset, [])).
Proof.
  intros Hmod Hrange. unfold zoneText.
  destruct (Z.eqb_spec offset 0) as [Hz | Hnz]; [reflexivity|]. cbv zeta.
  assert (Hq : offset = 60 * Z.quot offset 60).
  { pose proof (Z.quot_rem offset 60 ltac:(lia)) as Hqr.
    assert (Z.rem offset 60 = 0)
      by (apply Z.rem_divide; [lia|]; apply Z.mod_divide; [lia | exact Hmod]).
    lia. }
  set (q := Z.quot offset 60) in *. clearbody q.
  destruct (Z.ltb_spec q 0) as [Hneg | Hpos].
  - assert (Hh : 0 <= - q / 60 < 100) by (Z.div_mod_to_equations; lia).
    assert (Hm : 0 <= - q mod 60 < 100) by (Z.div_mod_to_equations; lia).
    rewrite !appendInt_decimal by (try lia; change (10 ^ Z.of_nat 2) with 100; lia).
    rewrite !decimal_2. cbn [app]. unfold parseZone.
    cbn [length Nat.ltb Nat.leb nth firstn skipn].
    change (Ascii.eqb ":" ":") with true. cbn [negb].
    rewrite !getnum_digits by lia. cbn [mbind option_bind].
    change (getnum ["0"%char; "0"%char] true) with (Some (0, @nil ascii)).
    cbn [mbind option_bind].
    destruct (Z.gtb_spec (- q / 60) 24) as [Hgt | _];
      [Z.div_mod_to_equations; lia|].
    destruct (Z.gtb_spec (- q mod 60) 60) as [Hgt | _];
      [Z.div_mod_to_equations; lia|].
    change (60 >? 60) with false. change (0 >? 60) with false. cbn [orb].
    change (Ascii.eqb "-" "+") with false. change (Ascii.eqb "-" "-") with true.
    cbv iota. f_equal. f_equal. f_equal. Z.div_mod_to_equations. lia.
  - assert (Hh : 0 <= q / 60 < 100) by (Z.div_mod_to_equations; lia).
    assert (Hm : 0 <= q mod 60 < 100) by (Z.div_mod_to_equations; lia).
    rewrite !appendInt_decimal by (try lia; change (10 ^ Z.of_nat 2) with 100; lia).
    rewrite !decimal_2. cbn [app]. unfold parseZone.
    cbn [length Nat.ltb Nat.leb nth firstn skipn].
    change (Ascii.eqb ":" ":") with true. cbn [negb].
    rewrite !getnum_digits by lia. cbn [mbind option_bind].
    change (getnum ["0"%char; "0"%char] true) with (Some (0, @nil ascii)).
    cbn [mbind option_bind].
    destruct (Z.gtb_spec (q / 60) 24) as [Hgt | _];
      [Z.div_mod_to_equations; lia|].
    destruct (Z.gtb_spec (q mod 60) 60) as [Hgt | _];
      [Z.div_mod_to_equations; lia|].
    change (0 >? 60) with false. cbn [orb].
    change (Ascii.eqb "+" "+") with true.
    cbv iota. f_equal. f_equal. f_equal. Z.div_mod_to_equations. lia.
Qed.

Lemma appendFormat_shape (t : Time) (nanos : bool)
    (offset abs year month day hour min sec : Z) :
  locabs t = (offset, abs) ->
  absDate abs = (year, month, day) ->
  absClock abs = (hour, min, sec) ->
  0 <= year <= 9999 ->
  appendFormatRFC3339 t [] nanos
  = decimal 4 year ++ "-"%char :: decimal 2 month ++ "-"%char
    :: decimal 2 day ++ "T"%char :: decimal 2 hour ++ ":"%char
    :: decimal 2 min ++ ":"%char :: decimal 2 sec
    ++ (if nanos then fracText (nsec t) else []) ++ zoneText offset.
Proof.
  intros Hloc Hdate Hclk Hyear.
  unfold appendFormatRFC3339. rewrite Hloc, Hdate, Hclk.
  destruct (absDate_Date abs 0 year month day hour min sec ltac:(lia) Hdate Hclk)
    as (Hmonth & Hday & Hday31 & Hhour & Hmin & Hsec & _).
  assert (H100 : 10 ^ Z.of_nat 2 = 100) by reflexivity.
  assert (H10000 : 10 ^ Z.of_nat 4 = 10000) by reflexivity.
  rewrite (appendInt_decimal [] year 4) by lia.
  rewrite (appendInt_decimal _ month 2) by lia.
  rewrite (appendInt_decimal _ day 2) by lia.
  rewrite (appendInt_decimal _ hour 2) by lia.
  rewrite (appendInt_decimal _ min 2) by lia.
  rewrite (appendInt_decimal _ sec 2) by lia.
  assert (Hnsec : 0 <= nsec t < 1000000000)
    by (unfold nsec; apply Z.mod_pos_bound; lia).
  set (body := (((((((((([] ++ decimal 4 year) ++ ["-"%char]) ++ decimal 2 month)
                      ++ ["-"%char]) ++ decimal 2 day) ++ ["T"%char])
                   ++ decimal 2 hour) ++ [":"%char]) ++ decimal 2 min)
                ++ [":"%char]) ++ decimal 2 sec).
  set (b := if nanos then appendNano body (nsec t) else body).
  assert (Hb : b = body ++ (if nanos then fracText (nsec t) else [])).
  { unfold b. destruct nanos.
    - apply appendNano_app. exact Hnsec.
    - rewrite app_nil_r. reflexivity. }
  rewrite Hb. clear Hb b.
  set (frac := if nanos then fracText (nsec t) else []).
  assert (Hzone : forall b : list ascii,
            (if offset =? 0 then b ++ ["Z"%char]
             else
               let zone := Z.quot offset 60 in
               let '(b0, zone0) :=
                 if zone <? 0 then (b ++ ["-"%char], - zone)
                 else (b ++ ["+"%char], zone) in
               let b1 := appendInt b0 (zone0 / 60) 2 in
               let b2 := b1 ++ [":"%char] in
               appendInt b2 (zone0 mod 60) 2)
            = b ++ zoneText offset).
  { intros b. unfold zoneText. destruct (offset =? 0); [reflexivity|].
    cbv zeta. destruct (Z.quot offset 60 <? 0).
    - rewrite (appendInt_app (_ ++ _)), (appendInt_app (_ ++ _)).
      rewrite (appendInt_app (_ ++ _) _ 2), (appendInt_app [_]).
      rewrite <- !app_assoc. reflexivity.
    - rewrite (appendInt_app (_ ++ _)), (appendInt_app (_ ++ _)).
      rewrite (appendInt_app (_ ++ _) _ 2), (appendInt_app [_]).
      rewrite <- !app_assoc. reflexivity. }
  rewrite Hzone. unfold body. rewrite <- !app_assoc. reflexivity.
Qed.

Lemma atoi_four (year : Z) :
  0 <= year <= 9999 ->
  atoi [digitByte (year / 10 / 10 / 10 mod 10); digitByte (year / 10 / 10 mod 10);
        digitByte (year / 10 mod 10); digitByte (year mod 10)]
  = Some year.
Proof.
  intros Hy. rewrite <- decimal_4. apply atoi_decimal; [lia|].
  change (10 ^ Z.of_nat 4) with 10000. lia.
Qed.

(** [parse] on the text of an RFC 3339 timestamp: the date and the clock
    in fields of fixed width, a fraction and a zone designator. *)
Lemma parse_text (year month day hour min sec nsec : Z)
    (frac zone : list ascii) (z : option Location) (zoneOffset : Z) :
  0 <= year <= 9999 -> 1 <= month <= 12 -> 1 <= day <= daysIn month year ->
  day <= 31 -> 0 <= hour < 24 -> 0 <= min < 60 -> 0 <= sec < 60 ->
  parseFrac (frac ++ zone) = Some (nsec, zone) ->
  parseZone zone = Some (z, zoneOffset, []) ->
  parse (decimal 4 year ++ "-"%char :: decimal 2 month ++ "-"%char
         :: decimal 2 day ++ "T"%char :: decimal 2 hour ++ ":"%char
         :: decimal 2 min ++ ":"%char :: decimal 2 sec ++ frac ++ zone)
  = Some match z with
         | Some _ => Date year month day hour min sec nsec
         | None =>
             if negb (zoneOffset =? -1) then
               {| ns := ns (addSec (Date year month day hour min sec nsec)
                              (- zoneOffset));
                  loc := FixedZone zoneOffset |}
             else Date year month day hour min sec nsec
         end.
Proof.
  intros Hyear Hmonth Hday Hday31 Hhour Hmin Hsec Hfrac Hzone.
  unfold parse. rewrite decimal_4, !decimal_2.
  cbn [app length Nat.ltb Nat.leb firstn skipn skip].
  unfold isDigit at 1. cbn [nth_error].
  rewrite isDigitByte_digitByte by apply mod10_digit.
  cbn [negb orb]. rewrite atoi_four by exact Hyear.
  cbn [mbind option_bind].
  change (Ascii.eqb "-" "-") with true. cbv iota. cbn [mbind option_bind].
  rewrite getnum_digits by lia. cbn [mbind option_bind].
  destruct (Z.leb_spec month 0) as [Hle | _]; [lia|].
  destruct (Z.ltb_spec 12 month) as [Hlt | _]; [lia|]. cbn [orb].
  cbn [skip]. change (Ascii.eqb "-" "-") with true. cbv iota.
  cbn [mbind option_bind].
  rewrite getnum_digits by lia. cbn [mbind option_bind skip].
  change (Ascii.eqb "T" "T") with true. cbv iota. cbn [mbind option_bind].
  rewrite getnum_digits by lia. cbn [mbind option_bind].
  destruct (Z.ltb_spec hour 0) as [Hlt | _]; [lia|].
  destruct (Z.leb_spec 24 hour) as [Hle | _]; [lia|]. cbn [orb skip].
  change (Ascii.eqb ":" ":") with true. cbv iota. cbn [mbind option_bind].
  rewrite getnum_digits by lia. cbn [mbind option_bind].
  destruct (Z.ltb_spec min 0) as [Hlt | _]; [lia|].
  destruct (Z.leb_spec 60 min) as [Hle | _]; [lia|]. cbn [orb skip].
  change (Ascii.eqb ":" ":") with true. cbv iota. cbn [mbind option_bind].
  rewrite getnum_digits by lia. cbn [mbind option_bind].
  destruct (Z.ltb_spec sec 0) as [Hlt | _]; [lia|].
  destruct (Z.leb_spec 60 sec) as [Hle | _]; [lia|]. cbn [orb].
  rewrite Hfrac. cbn [mbind option_bind].
  rewrite Hzone. cbn [mbind option_bind length Nat.eqb negb].
  destruct (Z.ltb_spec day 1) as [Hlt | _]; [lia|].
  destruct (Z.gtb_spec day (daysIn month year)) as [Hgt | _]; [lia|].
  cbn [orb]. destruct z; [reflexivity|].
  destruct (negb (zoneOffset =? -1)); reflexivity.
Qed.

(** What [Parse] makes of [Format]: for a time in the range of the
    layouts, the text [Format] writes parses, to the instant of the time
    under [RFC3339Nano], and to its whole second under [RFC3339]. *)
Lemma Parse_Format (t : Time) (layout : Layout) :
  inRFC3339Range t ->
  exists t',
    Parse (Format t layout) = Some t'
    /\ ns t' = match layout with
               | RFC3339Nano => ns t
               | RFC3339 => sec t * 1000000000
               end.
Proof.
  intros (offset & abs & year & month & day & Hloc & Hdate & Hyear & Hmod
          & Hoff).
  unfold Parse, Format. rewrite list_ascii_of_string_of_list_ascii.
  assert (Hnsec : 0 <= nsec t < 1000000000)
    by (unfold nsec; apply Z.mod_pos_bound; lia).
  assert (Hsecs : ns t = GoTime.sec t * 1000000000 + nsec t).
  { unfold GoTime.sec, nsec. pose proof (Z.div_mod (ns t) 1000000000). lia. }
  assert (Habs : abs + absoluteToInternal = GoTime.sec t + offset).
  { unfold locabs in Hloc. injection Hloc as Hoff' Hab. subst offset abs.
    unfold unixSec, internalToAbsolute, internalToUnix. lia. }
  destruct (absClock abs) as [[hour min] second] eqn:Hclk.
  destruct (absDate_Date abs
              match layout with RFC3339 => 0 | RFC3339Nano => nsec t end
              year month day hour min second
              ltac:(destruct layout; lia) Hdate Hclk)
    as (Hmonth & Hday & Hday31 & Hhour & Hmin & Hsec & Hns).
  rewrite (appendFormat_shape t _ offset abs year month day hour min second
             Hloc Hdate Hclk Hyear).
  destruct (zoneText_head offset) as [Hzd Hzc].
  pose proof (parseZone_zoneText offset Hmod Hoff) as Hzone.
  assert (Hfrac :
            parseFrac ((if match layout with
                            | RFC3339 => false
                            | RFC3339Nano => true
                            end then fracText (nsec t) else [])
                       ++ zoneText offset)
            = Some (match layout with RFC3339 => 0 | RFC3339Nano => nsec t end,
                    zoneText offset)).
  { destruct layout.
    - apply (parseFrac_fracText 0); [lia | assumption | assumption].
    - apply parseFrac_fracText; assumption. }
  destruct (Z.eqb_spec offset 0) as [Hz | Hnz].
  - rewrite (parse_text _ _ _ _ _ _ _ _ _ _ _
               Hyear Hmonth Hday Hday31 Hhour Hmin Hsec Hfrac Hzone).
    eexists. split; [reflexivity|].
    rewrite Hns, Habs, Hz. destruct layout; lia.
  - rewrite (parse_text _ _ _ _ _ _ _ _ _ _ _
               Hyear Hmonth Hday Hday31 Hhour Hmin Hsec Hfrac Hzone).
    eexists. split; [reflexivity|].
    assert (Hm1 : (offset =? -1) = false).
    { apply Z.eqb_neq. intros Heq. rewrite Heq in Hmod. vm_compute in Hmod.
      discriminate. }
    rewrite Hm1. cbn [negb ns addSec]. rewrite Hns, Habs.
    destruct layout; lia.
Qed.

(** C6 (as amended). For every timestamp in the range of the layout (a
    year of four digits in the zone of the timestamp, a zone offset of
    whole minutes), the text the client stage writes with [RFC3339Nano]
    parses in the server stage, to a timestamp equal to the original to
    the nanosecond. *)
Theorem Parse_Format_roundtrip (t : Time) :
  inRFC3339Range t ->
  exists t', Parse (Format t RFC3339Nano) = Some t' /\ Equal t' t = true.
Proof.
  intros Hrange.
  destruct (Parse_Format t RFC3339Nano Hrange) as [t' [Hparse Hns]].
  exists t'. split; [exact Hparse|]. unfold Equal. apply Z.eqb_eq. exact Hns.
Qed.

Lemma inRFC3339Range_zonedTime : inRFC3339Range zonedTime.
Proof.
  exists (-19800), 9223372030608757790, 2029, 12, 31.
  split; [vm_compute; reflexivity|]. split; [vm_compute; reflexivity|].
  split; [lia|]. split; [reflexivity | lia].
Defined.

Lemma inRFC3339Range_time2030 : inRFC3339Range time2030.
Proof.
  exists 0, 9223372030608777600, 2030, 1, 1.
  split; [vm_compute; reflexivity|]. split; [vm_compute; reflexivity|].
  split; [lia|]. split; [reflexivity | lia].
Defined.

(** Witness of C6: 2029-12-31T18:29:50.123456-05:30. *)
Lemma Parse_Format_roundtrip_witness :
  Format zonedTime RFC3339Nano = "2029-12-31T18:29:50.123456-05:30"
  /\ exists t',
       Parse (Format zonedTime RFC3339Nano) = Some t'
       /\ Equal t' zonedTime = true.
Proof.
  split; [reflexivity|].
  apply (Parse_Format_roundtrip zonedTime inRFC3339Range_zonedTime).
Defined.

(** Counterexample of C6 as stated: the first instant of the year 10000 is
    written with a year of five digits, which does not parse; and a time
    in a zone thirty seconds off UTC is written with the offset [+00:00]
    and parses to an instant thirty seconds later. *)
Lemma roundtrip_counterexample :
  Format year10000 RFC3339Nano = "10000-01-01T00:00:00Z"
  /\ Parse (Format year10000 RFC3339Nano) = None
  /\ Format oddZoneTime RFC3339Nano = "2030-01-01T00:00:20+00:00"
  /\ exists t',
       Parse (Format oddZoneTime RFC3339Nano) = Some t'
       /\ Equal t' oddZoneTime = false
       /\ ns t' = ns oddZoneTime + 30 * Second.
Proof.
  split; [vm_compute; reflexivity|]. split; [vm_compute; reflexivity|].
  split; [vm_compute; reflexivity|].
  exists {| ns := ns oddZoneTime + 30 * Second; loc := FixedZone 0 |}.
  split; [vm_compute; reflexivity|]. split; vm_compute; reflexivity.
Qed.

(* ===================================================================== *)
(** ** Properties of the deadline stages                                  *)
(* ===================================================================== *)

Lemma WithContext_same (r : Request) : WithContext r (Context r) = r.
Proof. destruct r; reflexivity. Qed.

Lemma WithDeadline_fresh (ctx : Ctx) (d : Time) :
  Deadline ctx = None -> WithDeadline ctx d = {| Deadline := Some d |}.
Proof. intros H. unfold WithDeadline. rewrite H. reflexivity. Qed.

Lemma ns_earliest (t u : Time) : ns (earliest t u) = Z.min (ns t) (ns u).
Proof. unfold earliest. destruct (Z.leb_spec (ns t) (ns u)); lia. Qed.

(** The clamp of the source, [if deadline.After(maxDeadline) { deadline =
    maxDeadline }], picks the earlier of the two times. *)
Lemma After_clamp (deadline maxDeadline : Time) :
  (if After deadline maxDeadline then maxDeadline else deadline)
  = earliest deadline maxDeadline.
Proof.
  unfold After, earliest.
  destruct (Z.ltb_spec (ns maxDeadline) (ns deadline));
    destruct (Z.leb_spec (ns deadline) (ns maxDeadline)); try reflexivity; lia.
Qed.

(** A clock reading shifted by an [int64] duration is not the zero time. *)
Lemma Add_clock_not_zero (now : Time) (d : Duration) :
  clockReading now -> int64 d -> IsZero (GoTime.Add now d) = false.
Proof.
  unfold clockReading, int64, IsZero, GoTime.Add. simpl. intros Hnow Hd.
  apply Z.eqb_neq.
  assert (2 ^ 63 < unixToInternal * 1000000000) by (vm_compute; reflexivity).
  lia.
Qed.

Lemma Parse_empty : Parse "" = None.
Proof. reflexivity. Qed.

(** The server stage in front of a request that carries a deadline. *)
Lemma ServeHTTP_with_deadline {W} (m : Middleware W) (now : Time) (w : W)
    (r : Request) (d : Time) :
  Deadline (Context r) = Some d -> ServeHTTP m now w r = target m w r.
Proof. intros Hd. unfold ServeHTTP. rewrite Hd. reflexivity. Qed.

(** What the server stage does once the candidate is known: the three
    outcomes of the resolution, for a request without a context deadline. *)
Lemma ServeHTTP_no_deadline {W} (m : Middleware W) (now : Time) (w : W)
    (r : Request) :
  Deadline (Context r) = None ->
  let h := Get (Header_ r) (headerName (cfg m)) in
  let fromHeader := match Parse h with Some dl => dl | None => zeroTime end in
  let candidate :=
    if IsZero fromHeader && negb (defaultTimeout (cfg m) =? 0)
    then GoTime.Add now (defaultTimeout (cfg m)) else fromHeader in
  ServeHTTP m now w r =
    if IsZero candidate then target m w r
    else target m w
           (WithContext r
              {| Deadline := Some (clampTo (maxTimeout (cfg m)) now candidate) |}).
Proof.
  intros Hctx h fromHeader candidate. unfold ServeHTTP. rewrite Hctx.
  fold h.
  assert (Hh : (if negb (String.eqb h "")
                then match Parse h with Some dl => dl | None => zeroTime end
                else zeroTime) = fromHeader).
  { destruct (String.eqb_spec h "") as [-> | Hne]; simpl.
    - unfold fromHeader. rewrite Parse_empty. reflexivity.
    - reflexivity. }
  rewrite Hh. fold candidate.
  destruct (IsZero candidate); simpl; [reflexivity|].
  rewrite WithDeadline_fresh by exact Hctx.
  unfold clampTo. destruct (maxTimeout (cfg m) =? 0); simpl.
  - reflexivity.
  - rewrite After_clamp. reflexivity.
Qed.

(** The client stage, for a request without a context deadline and for
    one with a context deadline. *)
Lemma RoundTrip_cases {R} (t : Transport R) (now : Time) (r : Request) :
  let candidate :=
    match Deadline (Context r) with
    | Some dl => dl
    | None =>
        if defaultTimeout (tcfg t) =? 0 then zeroTime
        else GoTime.Add now (defaultTimeout (tcfg t))
    end in
  RoundTrip t now r =
    if IsZero candidate then RoundTripper_ t r
    else RoundTripper_ t
           (HeaderAdd r (headerName (tcfg t))
              (Format (clampTo (maxTimeout (tcfg t)) now candidate) RFC3339Nano)).
Proof.
  intros candidate. unfold RoundTrip.
  assert (Hc : match Deadline (Context r) with
               | Some dl => dl
               | None =>
                   if negb (defaultTimeout (tcfg t) =? 0)
                   then GoTime.Add now (defaultTimeout (tcfg t)) else zeroTime
               end = candidate).
  { unfold candidate. destruct (Deadline (Context r)); [reflexivity|].
    destruct (defaultTimeout (tcfg t) =? 0); reflexivity. }
  rewrite Hc. destruct (IsZero candidate); simpl; [reflexivity|].
  unfold clampTo. destruct (maxTimeout (tcfg t) =? 0); simpl.
  - reflexivity.
  - rewrite After_clamp. reflexivity.
Qed.

(** The value [h.Add] appends is the last one under the canonical key. *)
Lemma Add_lookup (h : Header) (key value : string) :
  GoHTTP.Add h key value !! CanonicalMIMEHeaderKey key
  = Some (default [] (h !! CanonicalMIMEHeaderKey key) ++ [value]).
Proof. unfold GoHTTP.Add. apply lookup_insert_eq. Qed.

(** C1 (as amended). For a request whose context carries no deadline, a
    candidate that is either a header value [T] that parses and is not the
    zero time, or [now + defaultTimeout] when the header yields no such
    value and [defaultTimeout] is non-zero, and a non-zero [maxTimeout],
    the server stage hands its target the request with the deadline
    [min(candidate, now + maxTimeout)] installed.  [now] is the one clock
    reading of the resolution; where the candidate is computed from it, it
    is a reading at or after the Unix epoch and [defaultTimeout] is an
    [int64]. *)
Theorem ServeHTTP_installs_clamped_candidate
    {W} (m : Middleware W) (now : Time) (w : W) (r : Request) (cand : Time) :
  Deadline (Context r) = None ->
  (Parse (Get (Header_ r) (headerName (cfg m))) = Some cand
   /\ IsZero cand = false)
  \/ ((Parse (Get (Header_ r) (headerName (cfg m))) = None
       \/ exists T, Parse (Get (Header_ r) (headerName (cfg m))) = Some T
                    /\ IsZero T = true)
      /\ defaultTimeout (cfg m) <> 0
      /\ cand = GoTime.Add now (defaultTimeout (cfg m))
      /\ clockReading now /\ int64 (defaultTimeout (cfg m))) ->
  maxTimeout (cfg m) <> 0 ->
  let d := earliest cand (GoTime.Add now (maxTimeout (cfg m))) in
  ServeHTTP m now w r = target m w (WithContext r {| Deadline := Some d |})
  /\ ns d = Z.min (ns cand) (ns now + maxTimeout (cfg m)).
Proof.
  intros Hctx Hcand HM d. split.
  2:{ unfold d. rewrite ns_earliest. reflexivity. }
  rewrite (ServeHTTP_no_deadline m now w r Hctx). cbv zeta.
  assert (Hclamp : forall c, clampTo (maxTimeout (cfg m)) now c
                             = earliest c (GoTime.Add now (maxTimeout (cfg m)))).
  { intros c. unfold clampTo. apply Z.eqb_neq in HM. rewrite HM. reflexivity. }
  destruct Hcand as [[HT Hnz] | [Hnone [HD0 [-> [Hnow HD]]]]].
  - rewrite HT, Hnz. simpl. rewrite Hnz, Hclamp. reflexivity.
  - assert (Hz : IsZero match Parse (Get (Header_ r) (headerName (cfg m))) with
                        | Some dl => dl
                        | None => zeroTime
                        end = true).
    { destruct Hnone as [-> | [T [-> HT]]]; [reflexivity | exact HT]. }
    rewrite Hz. apply Z.eqb_neq in HD0. rewrite HD0. simpl.
    rewrite (Add_clock_not_zero now _ Hnow HD), Hclamp. reflexivity.
Qed.

(** A whole second has the same text under both layouts: the client stage
    writes a second-precision value for such a deadline. *)
Lemma Format_whole_second (t : Time) :
  nsec t = 0 -> Format t RFC3339Nano = Format t RFC3339.
Proof.
  intros Hn. unfold Format. f_equal. unfold appendFormatRFC3339.
  rewrite Hn. unfold appendNano. change (0 =? 0) with true. reflexivity.
Qed.

(** C3 (as amended). A header value that is a second-precision RFC 3339
    timestamp, as the layout [RFC3339] writes it for a time [t] in the
    range of the layout, parses in the server stage, to the whole second
    of [t]; for a request without a context deadline and a value other
    than the zero time the stage installs it as the deadline, clamped to
    [now + maxTimeout] when [maxTimeout] is set.  For a whole second the
    layout [RFC3339Nano] of the client stage writes that same value. *)
Theorem ServeHTTP_accepts_second_precision
    {W} (m : Middleware W) (now : Time) (w : W) (r : Request) (t : Time) :
  inRFC3339Range t ->
  Deadline (Context r) = None ->
  Get (Header_ r) (headerName (cfg m)) = Format t RFC3339 ->
  sec t <> 0 ->
  exists T,
    Parse (Format t RFC3339) = Some T
    /\ ns T = sec t * 1000000000
    /\ ServeHTTP m now w r
       = target m w
           (WithContext r
              {| Deadline := Some (clampTo (maxTimeout (cfg m)) now T) |})
    /\ (nsec t = 0 -> Format t RFC3339Nano = Format t RFC3339).
Proof.
  intros Hrange Hctx Hget Hsec.
  destruct (Parse_Format t RFC3339 Hrange) as [T [Hparse Hns]].
  exists T. split; [exact Hparse|]. split; [exact Hns|].
  split; [|apply Format_whole_second].
  rewrite (ServeHTTP_no_deadline m now w r Hctx). cbv zeta.
  rewrite Hget, Hparse.
  assert (Hnz : IsZero T = false).
  { unfold IsZero. apply Z.eqb_neq. rewrite Hns. lia. }
  rewrite Hnz. cbn [andb]. rewrite Hnz. reflexivity.
Qed.

(** Witness of C3: the header value 2030-01-01T00:00:00Z under
    [maxTimeout] = 3 s. *)
Lemma ServeHTTP_accepts_second_precision_witness :
  Get (Header_ request2030) "Deadline" = Format time2030 RFC3339
  /\ exists T,
       Parse (Format time2030 RFC3339) = Some T
       /\ ns T = sec time2030 * 1000000000
       /\ ServeHTTP clampedServer exampleNow request2030 request2030
          = WithContext request2030
              {| Deadline := Some (clampTo (3 * Second) exampleNow T) |}
       /\ (nsec time2030 = 0
           -> Format time2030 RFC3339Nano = Format time2030 RFC3339).
Proof.
  split; [vm_compute; reflexivity|].
  apply (ServeHTTP_accepts_second_precision clampedServer exampleNow
           request2030 request2030 time2030 inRFC3339Range_time2030).
  - reflexivity.
  - vm_compute; reflexivity.
  - vm_compute; discriminate.
Defined.

(** Counterexample of C3 as stated: the second-precision value
    2030-01-01T00:00:00Z is not treated as absent; the stage installs it
    as the deadline, and installs nothing once the header is removed. *)
Lemma second_precision_header_counterexample :
  Get (Header_ request2030) (headerName (cfg defaultServer))
  = Format time2030 RFC3339
  /\ Get (Header_ request2030) (headerName (cfg defaultServer))
     = "2030-01-01T00:00:00Z"
  /\ ServeHTTP defaultServer exampleNow request2030 request2030
     = WithContext request2030 {| Deadline := Some time2030 |}
  /\ ServeHTTP defaultServer exampleNow request2030
       (HeaderDel request2030 "Deadline")
     = HeaderDel request2030 "Deadline"
  /\ Deadline (Context (HeaderDel request2030 "Deadline")) = None.
Proof.
  split; [vm_compute; reflexivity|]. split; [vm_compute; reflexivity|].
  split; [vm_compute; reflexivity|]. split; [vm_compute; reflexivity|].
  reflexivity.
Qed.

(** C2. For a request whose context already carries a deadline, the server
    stage hands the request to its target as it is, whatever the header and
    the configuration; a second stage under the first one changes nothing
    either. *)
Theorem ServeHTTP_existing_deadline_noop
    {W} (m m' : Middleware W) (now now' : Time) (w : W) (r : Request)
    (d : Time) :
  Deadline (Context r) = Some d ->
  ServeHTTP m now w r = target m w r
  /\ ServeHTTP {| cfg := cfg m; target := ServeHTTP m' now' |} now w r
     = target m' w r.
Proof.
  intros Hd. split.
  - apply (ServeHTTP_with_deadline m now w r d Hd).
  - rewrite (ServeHTTP_with_deadline _ now w r d Hd). cbn [target].
    apply (ServeHTTP_with_deadline m' now' w r d Hd).
Qed.

(** C5 (as amended). A header value that does not parse is treated as no
    header at all:
    the stage raises nothing and hands its target the request under the
    same context [ctx'] in both cases.  That context is the one of the
    request when it carries a deadline or [defaultTimeout] is zero (nothing
    is installed), and otherwise carries the deadline
    [now + defaultTimeout], clamped to [now + maxTimeout] when [maxTimeout]
    is non-zero; [now] is then a clock reading at or after the Unix epoch
    and [defaultTimeout] an [int64]. *)
Theorem ServeHTTP_unparseable_as_absent
    {W} (m : Middleware W) (now : Time) (w : W) (r : Request) :
  Parse (Get (Header_ r) (headerName (cfg m))) = None ->
  let r0 := HeaderDel r (headerName (cfg m)) in
  Get (Header_ r0) (headerName (cfg m)) = ""
  /\ exists ctx',
       ServeHTTP m now w r = target m w (WithContext r ctx')
       /\ ServeHTTP m now w r0 = target m w (WithContext r0 ctx')
       /\ (is_Some (Deadline (Context r)) \/ defaultTimeout (cfg m) = 0 ->
           ctx' = Context r)
       /\ (Deadline (Context r) = None -> defaultTimeout (cfg m) <> 0 ->
           clockReading now -> int64 (defaultTimeout (cfg m)) ->
           ctx' = {| Deadline :=
                       Some (clampTo (maxTimeout (cfg m)) now
                               (GoTime.Add now (defaultTimeout (cfg m)))) |}).
Proof.
  intros Hparse r0.
  assert (Hget0 : Get (Header_ r0) (headerName (cfg m)) = "").
  { unfold r0, HeaderDel, Get, Del. simpl. rewrite lookup_delete_eq. reflexivity. }
  split; [exact Hget0|].
  destruct (Deadline (Context r)) as [d|] eqn:Hctx.
  - exists (Context r). split; [|split; [|split]].
    + rewrite WithContext_same.
      apply (ServeHTTP_with_deadline m now w r d Hctx).
    + assert (Hctx0 : Deadline (Context r0) = Some d) by exact Hctx.
      change (Context r) with (Context r0). rewrite WithContext_same.
      apply (ServeHTTP_with_deadline m now w r0 d Hctx0).
    + reflexivity.
    + discriminate.
  - assert (Hctx0 : Deadline (Context r0) = None) by exact Hctx.
    rewrite (ServeHTTP_no_deadline m now w r Hctx).
    rewrite (ServeHTTP_no_deadline m now w r0 Hctx0). cbv zeta.
    rewrite Hget0, Parse_empty, Hparse.
    change (IsZero zeroTime) with true. cbn [andb].
    destruct (Z.eqb_spec (defaultTimeout (cfg m)) 0) as [HD0 | HD0]; cbn [negb].
    + exists (Context r). change (IsZero zeroTime) with true. cbv iota.
      split; [rewrite WithContext_same; reflexivity|].
      split; [change (Context r) with (Context r0);
              rewrite WithContext_same; reflexivity|].
      split; [reflexivity | contradiction].
    + destruct (IsZero (GoTime.Add now (defaultTimeout (cfg m)))) eqn:Hz.
      * exists (Context r).
        split; [rewrite WithContext_same; reflexivity|].
        split; [change (Context r) with (Context r0);
                rewrite WithContext_same; reflexivity|].
        split.
        -- reflexivity.
        -- intros _ _ Hnow HD.
           rewrite (Add_clock_not_zero now _ Hnow HD) in Hz. discriminate Hz.
      * eexists. split; [reflexivity|]. split; [reflexivity|]. split.
        -- intros [[x Hx] | HD]; [discriminate Hx | contradiction].
        -- reflexivity.
Qed.

(** C7. The client stage takes its candidate from the context first: with
    a context deadline the outcome does not depend on [defaultTimeout], and
    the header carries the context deadline (clamped); without one and with
    a non-zero [defaultTimeout] the header carries [now + defaultTimeout]
    (clamped), for a clock reading [now] at or after the Unix epoch and an
    [int64] timeout; with neither, the request goes to the transport as it
    is, with no header added. *)
Theorem RoundTrip_candidate_priority
    {R} (t : Transport R) (now : Time) (r : Request) :
  (forall dl, Deadline (Context r) = Some dl ->
     (forall D',
        RoundTrip {| RoundTripper_ := RoundTripper_ t;
                     tcfg := WithDefaultTimeout D' (tcfg t) |} now r
        = RoundTrip t now r)
     /\ (IsZero dl = false ->
         RoundTrip t now r
         = RoundTripper_ t
             (HeaderAdd r (headerName (tcfg t))
                (Format (clampTo (maxTimeout (tcfg t)) now dl) RFC3339Nano))))
  /\ (Deadline (Context r) = None -> defaultTimeout (tcfg t) <> 0 ->
      clockReading now -> int64 (defaultTimeout (tcfg t)) ->
      RoundTrip t now r
      = RoundTripper_ t
          (HeaderAdd r (headerName (tcfg t))
             (Format (clampTo (maxTimeout (tcfg t)) now
                        (GoTime.Add now (defaultTimeout (tcfg t))))
                RFC3339Nano)))
  /\ (Deadline (Context r) = None -> defaultTimeout (tcfg t) = 0 ->
      RoundTrip t now r = RoundTripper_ t r).
Proof.
  split; [|split].
  - intros dl Hdl. split.
    + intros D'. rewrite !RoundTrip_cases. cbv zeta. rewrite Hdl. reflexivity.
    + intros Hnz. rewrite RoundTrip_cases. cbv zeta. rewrite Hdl, Hnz.
      reflexivity.
  - intros Hctx HD0 Hnow HD. rewrite RoundTrip_cases. cbv zeta. rewrite Hctx.
    apply Z.eqb_neq in HD0. rewrite HD0.
    rewrite (Add_clock_not_zero now _ Hnow HD). reflexivity.
  - intros Hctx HD0. rewrite RoundTrip_cases. cbv zeta.
    rewrite Hctx, HD0. reflexivity.
Qed.

(** C8 (as amended). For an outbound request that carries no value under
    the header [headerName] yet, with a candidate that is not the zero time
    (the context deadline, or [now + defaultTimeout] when the context has
    none and [defaultTimeout] is non-zero) and a non-zero [maxTimeout], the
    value written into the header [headerName], the one [Header.Get] reads
    from the request the transport receives and the only one under that
    header, is the time [min(candidate, now + maxTimeout)] in the layout
    [RFC3339Nano]; for a candidate later than [now + maxTimeout], such as
    a context deadline 10 s out under [maxTimeout] = 2 s, that time is
    [now + maxTimeout].  Where the candidate is computed from [now], [now]
    is a clock reading at or after the Unix epoch and [defaultTimeout] is
    an [int64]. *)
Theorem RoundTrip_writes_clamped_deadline
    {R} (t : Transport R) (now : Time) (r : Request) (cand : Time) :
  default [] (Header_ r !! CanonicalMIMEHeaderKey (headerName (tcfg t))) = [] ->
  (Deadline (Context r) = Some cand /\ IsZero cand = false)
  \/ (Deadline (Context r) = None /\ defaultTimeout (tcfg t) <> 0
      /\ cand = GoTime.Add now (defaultTimeout (tcfg t))
      /\ clockReading now /\ int64 (defaultTimeout (tcfg t))) ->
  maxTimeout (tcfg t) <> 0 ->
  let d := earliest cand (GoTime.Add now (maxTimeout (tcfg t))) in
  let r' := HeaderAdd r (headerName (tcfg t)) (Format d RFC3339Nano) in
  RoundTrip t now r = RoundTripper_ t r'
  /\ Get (Header_ r') (headerName (tcfg t)) = Format d RFC3339Nano
  /\ Header_ r' !! CanonicalMIMEHeaderKey (headerName (tcfg t))
     = Some [Format d RFC3339Nano]
  /\ ns d = Z.min (ns cand) (ns now + maxTimeout (tcfg t))
  /\ (ns now + maxTimeout (tcfg t) < ns cand ->
      d = GoTime.Add now (maxTimeout (tcfg t))).
Proof.
  intros Hfresh Hcand HM d r'.
  assert (Hclamp : clampTo (maxTimeout (tcfg t)) now cand = d).
  { unfold clampTo. apply Z.eqb_neq in HM. rewrite HM. reflexivity. }
  assert (Hvalues : Header_ r' !! CanonicalMIMEHeaderKey (headerName (tcfg t))
                    = Some [Format d RFC3339Nano]).
  { unfold r', HeaderAdd. cbn [Header_]. rewrite Add_lookup, Hfresh.
    reflexivity. }
  split; [|split; [|split; [|split]]].
  - rewrite RoundTrip_cases. cbv zeta.
    destruct Hcand as [[Hctx Hnz] | [Hctx [HD0 [Hc [Hnow HD]]]]]; rewrite Hctx.
    + rewrite Hnz, Hclamp. reflexivity.
    + apply Z.eqb_neq in HD0. rewrite HD0. rewrite <- Hc.
      assert (Hnz : IsZero cand = false)
        by (rewrite Hc; apply Add_clock_not_zero; assumption).
      rewrite Hnz, Hclamp. reflexivity.
  - unfold Get. rewrite Hvalues. reflexivity.
  - exact Hvalues.
  - unfold d. rewrite ns_earliest. reflexivity.
  - intros Hlt. unfold d, earliest.
    destruct (Z.leb_spec (ns cand) (ns (GoTime.Add now (maxTimeout (tcfg t)))))
      as [Hle | _]; [|reflexivity].
    cbn [ns GoTime.Add] in Hle. lia.
Qed.

(** C10. A maximum alone creates no deadline: without a context deadline,
    a parseable header value and a default timeout, the server stage hands
    the request on as it is; without a context deadline and a default
    timeout, the client stage does. Both hold for every [maxTimeout]. *)
Theorem maxTimeout_alone_creates_no_deadline
    {W R} (m : Middleware W) (t : Transport R) (now : Time) (w : W)
    (r : Request) :
  Deadline (Context r) = None ->
  (Parse (Get (Header_ r) (headerName (cfg m))) = None ->
   defaultTimeout (cfg m) = 0 ->
   ServeHTTP m now w r = target m w r)
  /\ (defaultTimeout (tcfg t) = 0 -> RoundTrip t now r = RoundTripper_ t r).
Proof.
  intros Hctx. split.
  - intros Hparse HD. rewrite (ServeHTTP_no_deadline m now w r Hctx). cbv zeta.
    rewrite Hparse, HD. reflexivity.
  - intros HD. rewrite RoundTrip_cases. cbv zeta. rewrite Hctx, HD. reflexivity.
Qed.

Lemma applyOptions_headerName (calls : list OptionCall) (c : config) :
  headerName (applyOptions (map optionOf calls) c)
  = configuredName (headerName c) calls.
Proof.
  revert c. induction calls as [|call calls IH]; intros c; [reflexivity|].
  unfold applyOptions in *. simpl. rewrite IH. destruct call; reflexivity.
Qed.

Lemma configuredName_nonempty (name : string) (calls : list OptionCall) :
  name <> "" ->
  (forall name', In (CallWithHeaderName name') calls -> name' <> "") ->
  configuredName name calls <> "".
Proof.
  revert name. induction calls as [|call calls IH]; intros name Hname Hall;
    [exact Hname|].
  destruct call; simpl; try (apply IH; [exact Hname|]; intros n Hn; apply Hall;
    right; exact Hn).
  apply IH; [apply Hall; left; reflexivity|].
  intros n Hn. apply Hall. right. exact Hn.
Qed.

(** C4 (as amended). For every sequence of options applied at
    construction, of the server stage as of the client stage, the
    resulting [headerName] is the name of the last [WithHeaderName] of the
    sequence, and ["Deadline"] when there is none; it is non-empty when no
    option of the sequence configures an empty name. *)
Theorem headerName_last_configured
    {W R} (h : Handler W) (c : Client R) (calls : list OptionCall) :
  headerName (cfg (Wrap h (map optionOf calls)))
  = configuredName DefaultHeaderName calls
  /\ headerName (tcfg (WrapClient c (map optionOf calls)))
     = configuredName DefaultHeaderName calls
  /\ ((forall name, In (CallWithHeaderName name) calls -> name <> "") ->
      configuredName DefaultHeaderName calls <> "").
Proof.
  split; [|split].
  - apply applyOptions_headerName.
  - apply applyOptions_headerName.
  - apply configuredName_nonempty. discriminate.
Qed.

Lemma clockReading_exampleNow : clockReading exampleNow.
Proof. unfold clockReading. vm_compute. discriminate. Defined.

Lemma int64_small (d : Z) :
  (- 2 ^ 63 <=? d) = true -> (d <? 2 ^ 63) = true -> int64 d.
Proof. unfold int64. intros H1 H2. apply Z.leb_le in H1. apply Z.ltb_lt in H2. lia. Defined.

(** Witness of C1: the header value 2030-01-01T00:00:00Z, ten seconds
    ahead, under [maxTimeout] = 3 s. *)
Lemma ServeHTTP_installs_clamped_candidate_witness :
  Parse (Get (Header_ request2030) "Deadline") = Some (Date 2030 1 1 0 0 0 0)
  /\ ServeHTTP clampedServer exampleNow request2030 request2030
     = WithContext request2030
         {| Deadline := Some (GoTime.Add exampleNow (3 * Second)) |}.
Proof.
  split; [reflexivity|].
  apply (ServeHTTP_installs_clamped_candidate clampedServer exampleNow
           request2030 request2030 (Date 2030 1 1 0 0 0 0)).
  - reflexivity.
  - left. split; reflexivity.
  - discriminate.
Defined.

(** Counterexample of C1 as stated: the header value 0001-01-01T00:00:00Z
    parses, to the zero time, and the stage installs no deadline at all
    although [maxTimeout] is set. *)
Lemma ServeHTTP_zero_header_counterexample :
  Deadline (Context requestZero) = None
  /\ Parse (Get (Header_ requestZero) (headerName (cfg clampedServer)))
     = Some zeroTime
  /\ maxTimeout (cfg clampedServer) <> 0
  /\ ServeHTTP clampedServer exampleNow requestZero requestZero = requestZero
  /\ ~ (exists d,
          ns d = Z.min (ns zeroTime)
                   (ns exampleNow + maxTimeout (cfg clampedServer))
          /\ ServeHTTP clampedServer exampleNow requestZero requestZero
             = target clampedServer requestZero
                 (WithContext requestZero {| Deadline := Some d |})).
Proof.
  assert (Hrun : ServeHTTP clampedServer exampleNow requestZero requestZero
                 = requestZero) by reflexivity.
  split; [reflexivity|]. split; [reflexivity|]. split; [discriminate|].
  split; [exact Hrun|].
  intros [d [_ H]]. rewrite Hrun in H.
  apply (f_equal (fun x => Deadline (Context x))) in H. discriminate H.
Qed.

(** Witness of C2. *)
Lemma ServeHTTP_existing_deadline_noop_witness :
  Deadline (Context requestWithDeadline)
  = Some (GoTime.Add exampleNow (10 * Second))
  /\ ServeHTTP clampedServer exampleNow requestWithDeadline requestWithDeadline
     = requestWithDeadline
  /\ ServeHTTP {| cfg := cfg clampedServer;
                  target := ServeHTTP timeoutServer exampleNow |}
       exampleNow requestWithDeadline requestWithDeadline
     = requestWithDeadline.
Proof.
  split; [reflexivity|].
  apply (ServeHTTP_existing_deadline_noop clampedServer timeoutServer
           exampleNow exampleNow requestWithDeadline requestWithDeadline
           (GoTime.Add exampleNow (10 * Second))).
  reflexivity.
Defined.

(** Witness of C5: the header value ["tomorrow"] under a default timeout of
    3 s and a maximum of 1 s. *)
Lemma ServeHTTP_unparseable_as_absent_witness :
  Get (Header_ requestGarbled) "Deadline" = "tomorrow"
  /\ Parse (Get (Header_ requestGarbled) "Deadline") = None
  /\ exists ctx',
       ServeHTTP timeoutServer exampleNow requestGarbled requestGarbled
       = WithContext requestGarbled ctx'
       /\ ServeHTTP timeoutServer exampleNow requestGarbled
            (HeaderDel requestGarbled "Deadline")
          = WithContext (HeaderDel requestGarbled "Deadline") ctx'
       /\ ctx' = {| Deadline := Some (GoTime.Add exampleNow (1 * Second)) |}.
Proof.
  split; [reflexivity|]. split; [reflexivity|].
  destruct (ServeHTTP_unparseable_as_absent timeoutServer exampleNow
              requestGarbled requestGarbled eq_refl)
    as [_ [ctx' [Hr [Hr0 [_ Hctx']]]]].
  exists ctx'. split; [exact Hr|]. split; [exact Hr0|].
  apply Hctx'.
  - reflexivity.
  - discriminate.
  - exact clockReading_exampleNow.
  - apply int64_small; reflexivity.
Defined.

(** Counterexample of C5 as stated: behind the header value ["tomorrow"],
    with a default timeout of 3 s and a maximum of 1 s, the stage installs
    neither [now + defaultTimeout] nor nothing, but [now + maxTimeout]. *)
Lemma ServeHTTP_default_clamped_counterexample :
  Parse (Get (Header_ requestGarbled) (headerName (cfg timeoutServer))) = None
  /\ defaultTimeout (cfg timeoutServer) = 3 * Second
  /\ maxTimeout (cfg timeoutServer) = 1 * Second
  /\ ServeHTTP timeoutServer exampleNow requestGarbled requestGarbled
     = WithContext requestGarbled
         {| Deadline := Some (GoTime.Add exampleNow (1 * Second)) |}
  /\ ServeHTTP timeoutServer exampleNow requestGarbled requestGarbled
     <> WithContext requestGarbled
          {| Deadline :=
               Some (GoTime.Add exampleNow
                       (defaultTimeout (cfg timeoutServer))) |}
  /\ ServeHTTP timeoutServer exampleNow requestGarbled requestGarbled
     <> requestGarbled.
Proof.
  assert (Hrun : ServeHTTP timeoutServer exampleNow requestGarbled
                   requestGarbled
                 = WithContext requestGarbled
                     {| Deadline := Some (GoTime.Add exampleNow (1 * Second)) |})
    by (vm_compute; reflexivity).
  split; [vm_compute; reflexivity|]. split; [reflexivity|].
  split; [reflexivity|]. split; [exact Hrun|]. rewrite Hrun. split.
  - intros H.
    apply (f_equal (fun x => option_map ns (Deadline (Context x)))) in H.
    vm_compute in H. discriminate H.
  - intros H.
    apply (f_equal (fun x => option_map ns (Deadline (Context x)))) in H.
    vm_compute in H. discriminate H.
Qed.

(** Witness of C7: a default timeout without a context deadline, a context
    deadline next to a default timeout, and neither of them. *)
Lemma RoundTrip_candidate_priority_witness :
  Deadline (Context requestPlain) = None
  /\ RoundTrip timeoutClient exampleNow requestPlain
     = HeaderAdd requestPlain "Deadline" "2029-12-31T23:59:53.0000005Z"
  /\ RoundTrip timeoutClient exampleNow requestWithDeadline
     = HeaderAdd requestWithDeadline "Deadline" "2030-01-01T00:00:00.0000005Z"
  /\ RoundTrip clampedClient exampleNow requestPlain = requestPlain.
Proof.
  split; [reflexivity|].
  destruct (RoundTrip_candidate_priority timeoutClient exampleNow requestPlain)
    as [_ [Hdefault _]].
  destruct (RoundTrip_candidate_priority timeoutClient exampleNow
              requestWithDeadline) as [Hctx _].
  destruct (RoundTrip_candidate_priority clampedClient exampleNow requestPlain)
    as [_ [_ Hnone]].
  split; [|split].
  - rewrite Hdefault.
    + vm_compute; reflexivity.
    + reflexivity.
    + discriminate.
    + exact clockReading_exampleNow.
    + apply int64_small; reflexivity.
  - destruct (Hctx _ eq_refl) as [_ Hdl]. rewrite Hdl.
    + vm_compute; reflexivity.
    + vm_compute; reflexivity.
  - apply Hnone; reflexivity.
Defined.

(** Witness of C8: a request without headers under a context deadline
    10 s out, and [maxTimeout] = 2 s. *)
Lemma RoundTrip_writes_clamped_deadline_witness :
  Deadline (Context Coverage.requestFresh)
  = Some (GoTime.Add exampleNow (10 * Second))
  /\ RoundTrip clampedClient exampleNow Coverage.requestFresh
     = HeaderAdd Coverage.requestFresh "Deadline"
         (Format (GoTime.Add exampleNow (2 * Second)) RFC3339Nano)
  /\ Get (Header_ (RoundTrip clampedClient exampleNow Coverage.requestFresh))
       "Deadline"
     = "2029-12-31T23:59:52.0000005Z".
Proof.
  split; [reflexivity|].
  destruct (RoundTrip_writes_clamped_deadline clampedClient exampleNow
              Coverage.requestFresh (GoTime.Add exampleNow (10 * Second)))
    as [Hrun [Hget _]].
  - reflexivity.
  - left. split; reflexivity.
  - discriminate.
  - split; [exact Hrun|]. rewrite Hrun. exact Hget.
Defined.

(** Counterexample of C8 as stated.  Under a context whose deadline is
    the zero time the client stage has its candidate from the context, and
    writes no header although [maxTimeout] is set.  And for a request that
    already carries a value under the header, under a context deadline
    10 s out and [maxTimeout] = 2 s, the value of the header, as
    [Header.Get] reads it from the request the transport receives, is the
    one that was there, not [now + 2 s]. *)
Lemma RoundTrip_header_value_counterexample :
  (Deadline (Context requestZeroDeadline) = Some zeroTime
   /\ maxTimeout (tcfg clampedClient) <> 0
   /\ RoundTrip clampedClient exampleNow requestZeroDeadline
      = requestZeroDeadline
   /\ ~ (exists d,
           ns d = Z.min (ns zeroTime)
                    (ns exampleNow + maxTimeout (tcfg clampedClient))
           /\ RoundTrip clampedClient exampleNow requestZeroDeadline
              = RoundTripper_ clampedClient
                  (HeaderAdd requestZeroDeadline
                     (headerName (tcfg clampedClient))
                     (Format d RFC3339Nano))))
  /\ (Deadline (Context requestWithDeadline)
      = Some (GoTime.Add exampleNow (10 * Second))
      /\ IsZero (GoTime.Add exampleNow (10 * Second)) = false
      /\ maxTimeout (tcfg clampedClient) = 2 * Second
      /\ Format (earliest (GoTime.Add exampleNow (10 * Second))
                   (GoTime.Add exampleNow (2 * Second))) RFC3339Nano
         = "2029-12-31T23:59:52.0000005Z"
      /\ Header_ (RoundTrip clampedClient exampleNow requestWithDeadline)
         !! "Deadline"
         = Some ["2030-01-01T00:00:00Z"; "2029-12-31T23:59:52.0000005Z"]
      /\ Get (Header_ (RoundTrip clampedClient exampleNow requestWithDeadline))
           (headerName (tcfg clampedClient))
         = "2030-01-01T00:00:00Z").
Proof.
  split.
  - assert (Hrun : RoundTrip clampedClient exampleNow requestZeroDeadline
                   = requestZeroDeadline) by reflexivity.
    split; [reflexivity|]. split; [discriminate|]. split; [exact Hrun|].
    intros [d [_ H]]. rewrite Hrun in H.
    apply (f_equal
             (fun x => Header_ x
                       !! CanonicalMIMEHeaderKey
                            (headerName (tcfg clampedClient))))
      in H.
    change (RoundTripper_ clampedClient) with (fun r : Request => r) in H.
    cbv beta in H. unfold HeaderAdd in H. cbn [Header_] in H.
    rewrite Add_lookup in H. discriminate H.
  - repeat split; vm_compute; reflexivity.
Qed.

(** Witness of C10. *)
Lemma maxTimeout_alone_creates_no_deadline_witness :
  Deadline (Context requestGarbled) = None
  /\ maxTimeout (cfg clampedServer) = 3 * Second
  /\ maxTimeout (tcfg clampedClient) = 2 * Second
  /\ ServeHTTP clampedServer exampleNow requestGarbled requestGarbled
     = requestGarbled
  /\ RoundTrip clampedClient exampleNow requestGarbled = requestGarbled.
Proof.
  split; [reflexivity|]. split; [reflexivity|]. split; [reflexivity|].
  destruct (maxTimeout_alone_creates_no_deadline clampedServer clampedClient
              exampleNow requestGarbled requestGarbled eq_refl) as [Hs Hc].
  split.
  - apply Hs; reflexivity.
  - apply Hc; reflexivity.
Defined.

(** Witness of C4. *)
Lemma headerName_last_configured_witness :
  headerName
    (cfg (Wrap observe
            (map optionOf
               [CallWithHeaderName "X-Stop-At"; CallWithMaxTimeout Second;
                CallWithHeaderName "X-Deadline"])))
  = "X-Deadline"
  /\ "X-Deadline" <> "".
Proof.
  destruct (headerName_last_configured observe
              {| ClientTransport := observeTrip |}
              [CallWithHeaderName "X-Stop-At"; CallWithMaxTimeout Second;
               CallWithHeaderName "X-Deadline"]) as [Hs [_ Hne]].
  split.
  - exact Hs.
  - apply Hne. intros name [H | [H | [H | []]]]; inversion H; discriminate.
Defined.

(** Counterexample of C4 as stated: an empty header name is kept, with no
    fallback to ["Deadline"]. *)
Lemma headerName_empty_counterexample :
  headerName (cfg (Wrap observe [WithHeaderName ""])) = ""
  /\ headerName (tcfg (WrapClient {| ClientTransport := observeTrip |}
                         [WithHeaderName ""])) = ""
  /\ headerName (cfg (Wrap observe [WithHeaderName ""])) <> DefaultHeaderName.
Proof.
  split; [reflexivity|]. split; [reflexivity|]. discriminate.
Qed.

(* ===================================================================== *)
(** ** Properties of the access-log stage                                 *)
(* ===================================================================== *)

Section LoggingProperties.

Import logging.

Context {W : Type} `{ResponseWriter W}.

(** A write on a writer that holds no status yet records 200; a write on a
    writer that holds one keeps it. *)
Lemma Write_status (ww : wrappedWriter (W := W)) (data : list ascii) :
  status (fst (Write ww data))
  = if status ww =? 0 then StatusOK else status ww.
Proof.
  simpl. unfold wrappedWriter_Write.
  destruct (status ww =? 0); simpl;
    destruct (Write (ResponseWriter_ _) data); reflexivity.
Qed.

Lemma WriteHeader_status (ww : wrappedWriter (W := W)) (code : Z) :
  status (WriteHeader ww code) = code.
Proof. reflexivity. Qed.

(** Calls that set no status keep a recorded 200, and turn an unset status
    into 200 as soon as one of them writes. *)
Lemma calls_without_status (calls : list WriterCall)
    (ww : wrappedWriter (W := W)) :
  forallb (fun c => negb (setsStatus c)) calls = true ->
  status (fold_left call calls ww)
  = if (status ww =? 0) && existsb writesBody calls then StatusOK
    else status ww.
Proof.
  revert ww. induction calls as [|c calls IH]; intros ww Hno.
  - simpl. rewrite andb_false_r. reflexivity.
  - simpl in Hno. apply andb_true_iff in Hno as [Hc Hno].
    destruct c as [code | data]; [discriminate Hc|].
    cbn [fold_left]. rewrite (IH _ Hno). unfold call.
    rewrite Write_status. cbn [existsb writesBody orb].
    destruct (Z.eqb_spec (status ww) 0) as [_ | Hne]; simpl.
    + reflexivity.
    + apply Z.eqb_neq in Hne. rewrite Hne. reflexivity.
Qed.

Lemma fold_extractors_head (fns : list ContextExtractor) (ctx : Ctx)
    (a : Attr) (attrs : list Attr) :
  exists rest,
    fold_left (fun attrs fn => attrs ++ fn ctx) fns (a :: attrs) = a :: rest.
Proof.
  revert attrs. induction fns as [|fn fns IH]; intros attrs; simpl.
  - exists attrs. reflexivity.
  - apply (IH (attrs ++ fn ctx)).
Qed.

(** C9 (as amended). When the handler the stage runs writes body data and
    at no point sets a status code explicitly, the status the wrapped
    writer has captured is 200, and the record the stage logs, unless the
    request is filtered, carries 200 as its status: in its level, in its
    message and in its first attribute. *)
Theorem logged_status_defaults_to_OK
    (m : Middleware) (elapsed : Duration) (w : W) (r : Request) :
  existsb writesBody (handlerOf m r r) = true ->
  forallb (fun c => negb (setsStatus c)) (handlerOf m r r) = true ->
  status (serve (handlerOf m r) {| ResponseWriter_ := w; status := 0 |} r)
  = StatusOK
  /\ match snd (ServeHTTP m elapsed w r) with
     | None => True
     | Some rec =>
         level rec = leveler m StatusOK
         /\ msg rec = Method r +:+ " " +:+ Path r +:+ " [200]"
         /\ exists rest,
              attrs rec = ("http.status_code", IntValue StatusOK) :: rest
     end.
Proof.
  intros Hwrites Hnoset.
  assert (Hst : status (serve (handlerOf m r)
                          {| ResponseWriter_ := w; status := 0 |} r) = StatusOK).
  { unfold serve. rewrite (calls_without_status _ _ Hnoset), Hwrites.
    reflexivity. }
  split; [exact Hst|].
  unfold ServeHTTP, handlerOf in *.
  destruct (target m) as [Handler | h].
  - destruct (Handler r) as [handler pattern]. simpl in Hst. cbn [snd].
    destruct (filterPath m (Path r)
              || negb (String.eqb pattern "") && filterRoute m pattern);
      [exact I|].
    cbn [level msg attrs]. rewrite Hst. split; [reflexivity|].
    split; [reflexivity|].
    destruct (negb (String.eqb pattern "")); apply fold_extractors_head.
  - cbn [snd].
    destruct (filterPath m (Path r)
              || negb (String.eqb "" "") && filterRoute m ""); [exact I|].
    cbn [level msg attrs]. rewrite Hst. split; [reflexivity|].
    split; [reflexivity|].
    destruct (negb (String.eqb "" "")); apply fold_extractors_head.
Qed.

End LoggingProperties.

(** Witness of C9: a handler that only writes, in front of a recorder. *)
Lemma logged_status_defaults_to_OK_witness :
  existsb writesBody (writeOnly requestPlain) = true
  /\ forallb (fun c => negb (setsStatus c)) (writeOnly requestPlain) = true
  /\ exists rec,
       snd (logging.ServeHTTP
              (logging.Wrap (logging.OtherHandler writeOnly) []) 5
              NewRecorder requestPlain) = Some rec
       /\ logging.msg rec = "GET / [200]".
Proof.
  split; [reflexivity|]. split; [reflexivity|].
  destruct (logged_status_defaults_to_OK
              (logging.Wrap (logging.OtherHandler writeOnly) []) 5
              NewRecorder requestPlain eq_refl eq_refl) as [_ Hlog].
  destruct (snd (logging.ServeHTTP
                   (logging.Wrap (logging.OtherHandler writeOnly) []) 5
                   NewRecorder requestPlain)) as [rec|] eqn:E.
  - exists rec. split; [reflexivity|]. destruct Hlog as [_ [Hmsg _]].
    exact Hmsg.
  - discriminate E.
Defined.

(** Counterexample of C9 as stated: the handler writes body data without
    having set a status code, so that the response goes out with 200, as
    the recorder shows; its later [WriteHeader(500)] replaces the captured
    status, and the record carries 500. *)
Lemma logged_status_overwritten_counterexample :
  hd_error (writeThenFail requestPlain)
  = Some (logging.CallWrite (list_ascii_of_string "partial"))
  /\ exists w' rec,
       logging.ServeHTTP
         (logging.Wrap (logging.OtherHandler writeThenFail) []) 5
         NewRecorder requestPlain = (w', Some rec)
       /\ Code w' = 200
       /\ logging.level rec = logging.LevelError
       /\ logging.msg rec = "GET / [500]"
       /\ hd_error (logging.attrs rec)
          = Some ("http.status_code", logging.IntValue 500).
Proof.
  split; [reflexivity|].
  eexists. eexists. split; [reflexivity|].
  repeat split.
Qed.

(* ===================================================================== *)
(** ** Further properties of the deadline stages                          *)
(* ===================================================================== *)

Import Coverage.

Lemma ns_clampTo (M : Duration) (now t : Time) :
  ns (clampTo M now t)
  = if M =? 0 then ns t else Z.min (ns t) (ns now + M).
Proof.
  unfold clampTo. destruct (M =? 0); [reflexivity|].
  rewrite ns_earliest. reflexivity.
Qed.

(** The candidate of the server stage is not the zero time once a default
    timeout is configured. *)
Lemma candidate_not_zero (now fromHeader : Time) (D : Duration) :
  D <> 0 -> clockReading now -> int64 D ->
  IsZero (if IsZero fromHeader && negb (D =? 0)
          then GoTime.Add now D else fromHeader) = false.
Proof.
  intros HD Hnow Hint. apply Z.eqb_neq in HD. rewrite HD. simpl.
  destruct (IsZero fromHeader) eqn:Hz; simpl.
  - apply Add_clock_not_zero; assumption.
  - exact Hz.
Qed.

(** X1. The server stage always ends in one call of its target, on the
    writer it was given and on a request that differs from the incoming
    one in its context at most: the header collection (the deadline header
    included), the method, the path and the body are handed on as they
    came, a request that carries a deadline is handed on unchanged, and a
    request that carries none is handed on unchanged or with a deadline
    installed. *)
Theorem ServeHTTP_changes_context_only
    {W} (m : Middleware W) (now : Time) (w : W) (r : Request) :
  exists r',
    ServeHTTP m now w r = target m w r'
    /\ Header_ r' = Header_ r /\ Method r' = Method r
    /\ Path r' = Path r /\ Body r' = Body r
    /\ match Deadline (Context r) with
       | Some _ => r' = r
       | None => r' = r \/ exists d, Context r' = {| Deadline := Some d |}
       end.
Proof.
  destruct (Deadline (Context r)) as [d|] eqn:Hctx.
  - exists r. rewrite (ServeHTTP_with_deadline m now w r d Hctx).
    repeat split.
  - rewrite (ServeHTTP_no_deadline m now w r Hctx). cbv zeta.
    match goal with |- context [IsZero ?c] => destruct (IsZero c) end.
    + exists r. repeat split. left. reflexivity.
    + eexists. split; [reflexivity|]. repeat split. right. eexists.
      reflexivity.
Qed.

(** X2. With a non-zero [maxTimeout], whatever the header and the default
    timeout are, a deadline the server stage installs is never later than
    [now + maxTimeout]: the request goes to the target as it came, or with
    a deadline at or before that instant. *)
Theorem ServeHTTP_deadline_within_max
    {W} (m : Middleware W) (now : Time) (w : W) (r : Request) :
  Deadline (Context r) = None ->
  maxTimeout (cfg m) <> 0 ->
  ServeHTTP m now w r = target m w r
  \/ exists d,
       ServeHTTP m now w r
       = target m w (WithContext r {| Deadline := Some d |})
       /\ ns d <= ns now + maxTimeout (cfg m).
Proof.
  intros Hctx HM. rewrite (ServeHTTP_no_deadline m now w r Hctx). cbv zeta.
  match goal with |- context [IsZero ?c] => destruct (IsZero c) end.
  - left. reflexivity.
  - right. eexists. split; [reflexivity|]. rewrite ns_clampTo.
    apply Z.eqb_neq in HM. rewrite HM. lia.
Qed.

(** X3. Without a maximum, a header value that parses to a time other
    than the zero time is installed as it is, whatever the clock reads and
    whatever the default timeout is: neither the default timeout nor the
    current time bounds a deadline that came in the header. *)
Theorem ServeHTTP_header_deadline_unbounded
    {W} (m : Middleware W) (now : Time) (w : W) (r : Request) (T : Time) :
  Deadline (Context r) = None ->
  Parse (Get (Header_ r) (headerName (cfg m))) = Some T ->
  IsZero T = false ->
  maxTimeout (cfg m) = 0 ->
  ServeHTTP m now w r = target m w (WithContext r {| Deadline := Some T |}).
Proof.
  intros Hctx HT Hnz HM. rewrite (ServeHTTP_no_deadline m now w r Hctx).
  cbv zeta. rewrite HT, Hnz. simpl. rewrite Hnz. unfold clampTo.
  rewrite HM. reflexivity.
Qed.

(** X4. With a non-zero default timeout (an [int64], under a clock
    reading at or after the Unix epoch) every request reaches the target
    under a context with a deadline: its own, the one of the header, or
    the default one. *)
Theorem ServeHTTP_default_gives_deadline
    {W} (m : Middleware W) (now : Time) (w : W) (r : Request) :
  defaultTimeout (cfg m) <> 0 ->
  clockReading now ->
  int64 (defaultTimeout (cfg m)) ->
  exists r' d,
    ServeHTTP m now w r = target m w r' /\ Deadline (Context r') = Some d.
Proof.
  intros HD Hnow Hint.
  destruct (Deadline (Context r)) as [d|] eqn:Hctx.
  - exists r, d. rewrite (ServeHTTP_with_deadline m now w r d Hctx).
    split; [reflexivity | exact Hctx].
  - rewrite (ServeHTTP_no_deadline m now w r Hctx). cbv zeta.
    rewrite (candidate_not_zero now _ _ HD Hnow Hint).
    eexists. eexists. split; reflexivity.
Qed.

(** X5. Stacking the server stage on itself changes nothing: the outer
    stage in front of the inner one, which reads the clock later, hands the
    target the request the outer stage alone hands it.  The default
    timeout is zero, or it is an [int64] and the outer clock reading is at
    or after the Unix epoch. *)
Theorem ServeHTTP_stacked_once
    {W} (m : Middleware W) (now now' : Time) (w : W) (r : Request) :
  defaultTimeout (cfg m) = 0
  \/ (clockReading now /\ int64 (defaultTimeout (cfg m))) ->
  ServeHTTP {| cfg := cfg m; target := ServeHTTP m now' |} now w r
  = ServeHTTP m now w r.
Proof.
  intros Hyp.
  destruct (Deadline (Context r)) as [d|] eqn:Hctx.
  - rewrite (ServeHTTP_with_deadline _ now w r d Hctx). cbn [target].
    rewrite !(ServeHTTP_with_deadline m _ w r d Hctx). reflexivity.
  - rewrite (ServeHTTP_no_deadline _ now w r Hctx).
    rewrite (ServeHTTP_no_deadline m now w r Hctx).
    cbv zeta. cbn [cfg target].
    match goal with |- context [IsZero ?c] => destruct (IsZero c) eqn:Hz end.
    + rewrite (ServeHTTP_no_deadline m now' w r Hctx). cbv zeta.
      destruct (Z.eq_dec (defaultTimeout (cfg m)) 0) as [HD | HD].
      * rewrite HD in *. rewrite andb_false_r in *. rewrite Hz.
        reflexivity.
      * destruct Hyp as [HD0 | [Hnow Hint]]; [contradiction|].
        rewrite (candidate_not_zero now _ _ HD Hnow Hint) in Hz.
        discriminate Hz.
    + eapply ServeHTTP_with_deadline. reflexivity.
Qed.

(** Witness of X2: a header value ten seconds ahead under [maxTimeout] =
    3 s. *)
Lemma ServeHTTP_deadline_within_max_witness :
  ServeHTTP clampedServer exampleNow requestPlain request2030
  = target clampedServer requestPlain request2030
  \/ exists d,
       ServeHTTP clampedServer exampleNow requestPlain request2030
       = target clampedServer requestPlain
           (WithContext request2030 {| Deadline := Some d |})
       /\ ns d <= ns exampleNow + maxTimeout (cfg clampedServer).
Proof.
  apply (ServeHTTP_deadline_within_max clampedServer exampleNow requestPlain
           request2030).
  - reflexivity.
  - vm_compute. discriminate.
Defined.

(** Witness of X3: the header value 2030-01-01T00:00:00Z in front of a
    stage without options. *)
Lemma ServeHTTP_header_deadline_unbounded_witness :
  ServeHTTP defaultServer exampleNow request2030 request2030
  = WithContext request2030 {| Deadline := Some time2030 |}.
Proof.
  apply (ServeHTTP_header_deadline_unbounded defaultServer exampleNow
           request2030 request2030 time2030); reflexivity.
Defined.

(** Witness of X4: a request without header and deadline under a default
    timeout of 3 s. *)
Lemma ServeHTTP_default_gives_deadline_witness :
  exists r' d,
    ServeHTTP defaultOnlyServer exampleNow requestPlain requestPlain
    = target defaultOnlyServer requestPlain r'
    /\ Deadline (Context r') = Some d.
Proof.
  apply (ServeHTTP_default_gives_deadline defaultOnlyServer exampleNow
           requestPlain requestPlain).
  - vm_compute. discriminate.
  - exact clockReading_exampleNow.
  - apply int64_small; reflexivity.
Defined.

(** Witness of X5: the stage with a default timeout of 3 s in front of
    itself, the inner clock one second ahead. *)
Lemma ServeHTTP_stacked_once_witness :
  ServeHTTP {| cfg := cfg defaultOnlyServer;
               target := ServeHTTP defaultOnlyServer
                           (GoTime.Add exampleNow (1 * Second)) |}
    exampleNow requestPlain requestPlain
  = ServeHTTP defaultOnlyServer exampleNow requestPlain requestPlain.
Proof.
  apply (ServeHTTP_stacked_once defaultOnlyServer exampleNow
           (GoTime.Add exampleNow (1 * Second)) requestPlain requestPlain).
  right. split.
  - exact clockReading_exampleNow.
  - apply int64_small; reflexivity.
Defined.

(** X6. The client stage always ends in one call of the transport it
    wraps, on a request that differs from the outbound one in the values
    under the deadline header at most: the context, the method, the path,
    the body and the values under every other key are handed on as they
    came, and under the canonical key of [headerName] the values that were
    there stay, in their order, followed by at most one new value. *)
Theorem RoundTrip_appends_only
    {R} (t : Transport R) (now : Time) (r : Request) :
  exists r',
    RoundTrip t now r = RoundTripper_ t r'
    /\ Context r' = Context r /\ Method r' = Method r
    /\ Path r' = Path r /\ Body r' = Body r
    /\ (forall k, k <> CanonicalMIMEHeaderKey (headerName (tcfg t)) ->
          Header_ r' !! k = Header_ r !! k)
    /\ exists added,
         (length added <= 1)%nat
         /\ default [] (Header_ r' !! CanonicalMIMEHeaderKey (headerName (tcfg t)))
            = default [] (Header_ r !! CanonicalMIMEHeaderKey (headerName (tcfg t)))
              ++ added.
Proof.
  rewrite RoundTrip_cases. cbv zeta.
  match goal with |- context [IsZero ?c] => destruct (IsZero c) end.
  - exists r. repeat split. exists []. split; [simpl; lia|].
    rewrite app_nil_r. reflexivity.
  - eexists. split; [reflexivity|]. cbn [HeaderAdd Context Method Path Body Header_].
    repeat split.
    + intros k Hk. unfold GoHTTP.Add. apply lookup_insert_ne. congruence.
    + eexists [_]. split; [simpl; lia|]. rewrite Add_lookup. reflexivity.
Qed.

(** X7. A value that the outbound request already carries under the
    deadline header stays the first one: what [Get] reads from the request
    the transport receives is that value, not the deadline the client
    stage resolved. *)
Theorem RoundTrip_keeps_first_value
    {R} (t : Transport R) (now : Time) (r : Request) (v : string)
    (vs : list string) :
  Header_ r !! CanonicalMIMEHeaderKey (headerName (tcfg t)) = Some (v :: vs) ->
  exists r',
    RoundTrip t now r = RoundTripper_ t r'
    /\ Get (Header_ r') (headerName (tcfg t)) = v.
Proof.
  intros Hv. rewrite RoundTrip_cases. cbv zeta.
  match goal with |- context [IsZero ?c] => destruct (IsZero c) end.
  - exists r. split; [reflexivity|]. unfold Get. rewrite Hv. reflexivity.
  - eexists. split; [reflexivity|]. cbn [HeaderAdd Header_]. unfold Get.
    rewrite Add_lookup, Hv. reflexivity.
Qed.

(** Witness of X7: a request that carries a deadline of 1999 in its header
    and a context deadline ten seconds ahead. *)
Lemma RoundTrip_keeps_first_value_witness :
  exists r',
    RoundTrip plainClient exampleNow requestStale = r'
    /\ Get (Header_ r') "Deadline" = "1999-01-01T00:00:00Z".
Proof.
  apply (RoundTrip_keeps_first_value plainClient exampleNow requestStale
           "1999-01-01T00:00:00Z" []).
  vm_compute. reflexivity.
Defined.

(** X8. A deadline travels from the client stage to the server stage.
    When the client stage resolves a candidate that is not the zero time
    and the deadline [sent] it writes, the candidate clamped, is not the
    zero time and can be carried by RFC 3339, when the outbound request
    has no value under the header yet, and when the server stage reads the
    same header, then the server stage, in front of the request the
    transport received, installs the instant [sent], clamped to its own
    maximum. *)
Theorem deadline_reaches_server
    {R W} (t : Transport R) (m : Middleware W) (now now' : Time) (w : W)
    (r : Request) :
  let candidate :=
    match Deadline (Context r) with
    | Some dl => dl
    | None =>
        if defaultTimeout (tcfg t) =? 0 then zeroTime
        else GoTime.Add now (defaultTimeout (tcfg t))
    end in
  let sent := clampTo (maxTimeout (tcfg t)) now candidate in
  IsZero candidate = false ->
  IsZero sent = false ->
  inRFC3339Range sent ->
  default [] (Header_ r !! CanonicalMIMEHeaderKey (headerName (tcfg t))) = [] ->
  headerName (cfg m) = headerName (tcfg t) ->
  exists r' d,
    RoundTrip t now r = RoundTripper_ t r'
    /\ ServeHTTP m now' w (received r')
       = target m w (WithContext (received r') {| Deadline := Some d |})
    /\ ns d = ns (clampTo (maxTimeout (cfg m)) now' sent).
Proof.
  intros candidate sent Hcand Hsent Hrange Hfresh Hname.
  destruct (Parse_Format sent RFC3339Nano Hrange) as [t' [HP Hns]].
  assert (Hz : IsZero t' = false).
  { unfold IsZero in *. rewrite Hns. exact Hsent. }
  exists (HeaderAdd r (headerName (tcfg t)) (Format sent RFC3339Nano)).
  exists (clampTo (maxTimeout (cfg m)) now' t').
  split; [|split].
  - rewrite RoundTrip_cases. cbv zeta. fold candidate. rewrite Hcand.
    reflexivity.
  - rewrite (ServeHTTP_no_deadline m now' w
               (received (HeaderAdd r (headerName (tcfg t))
                            (Format sent RFC3339Nano))) eq_refl).
    cbv zeta.
    assert (HG : Get (Header_ (received (HeaderAdd r (headerName (tcfg t))
                                           (Format sent RFC3339Nano))))
                   (headerName (cfg m)) = Format sent RFC3339Nano).
    { rewrite Hname. unfold received. cbn [WithContext HeaderAdd Header_].
      unfold Get. rewrite Add_lookup, Hfresh. reflexivity. }
    rewrite HG, HP, Hz. cbn [andb]. rewrite Hz. reflexivity.
  - rewrite !ns_clampTo, Hns. reflexivity.
Qed.

Lemma inRFC3339Range_tenSecondsOut :
  inRFC3339Range (GoTime.Add exampleNow (10 * Second)).
Proof.
  exists 0, 9223372030608777600, 2030, 1, 1.
  split; [vm_compute; reflexivity|]. split; [vm_compute; reflexivity|].
  split; [lia|]. split; [reflexivity | lia].
Defined.

(** Witness of X8: a context deadline ten seconds ahead, through a client
    stage and a server stage without options. *)
Lemma deadline_reaches_server_witness :
  exists r' d,
    RoundTrip plainClient exampleNow requestFresh = r'
    /\ ServeHTTP defaultServer exampleNow requestPlain (received r')
       = WithContext (received r') {| Deadline := Some d |}
    /\ ns d = ns (GoTime.Add exampleNow (10 * Second)).
Proof.
  apply (deadline_reaches_server plainClient defaultServer exampleNow
           exampleNow requestPlain requestFresh).
  - reflexivity.
  - reflexivity.
  - exact inRFC3339Range_tenSecondsOut.
  - reflexivity.
  - reflexivity.
Defined.

Lemma applyOptions_configured (calls : list OptionCall) (c : config) :
  applyOptions (map optionOf calls) c
  = {| headerName := configuredName (headerName c) calls;
       defaultTimeout := configuredDefault (defaultTimeout c) calls;
       maxTimeout := configuredMax (maxTimeout c) calls |}.
Proof.
  unfold applyOptions. revert c.
  induction calls as [|o calls IH]; intros c.
  - destruct c; reflexivity.
  - cbn [map fold_left]. rewrite IH. destruct o; reflexivity.
Qed.

(** X9. The options are independent of each other and the last call of
    each wins: the configuration [Wrap] and [WrapClient] build holds, in
    each field, the argument of the last call of the option of that field,
    and the default of [newConfig] (the name [Deadline], no timeout) where
    there is no such call. *)
Theorem options_last_per_field
    {W R} (h : Handler W) (c : Client R) (calls : list OptionCall) :
  let final :=
    {| headerName := configuredName DefaultHeaderName calls;
       defaultTimeout := configuredDefault 0 calls;
       maxTimeout := configuredMax 0 calls |} in
  cfg (Wrap h (map optionOf calls)) = final
  /\ tcfg (WrapClient c (map optionOf calls)) = final.
Proof.
  intros final. unfold Wrap, WrapClient. cbn [cfg tcfg].
  rewrite applyOptions_configured. split; reflexivity.
Qed.

(* ===================================================================== *)
(** ** Further properties of the access-log stage                         *)
(* ===================================================================== *)

Section LoggingCoverage.

Import logging.

Context {W : Type} `{ResponseWriter W}.


(** The stage in terms of the handler it runs and the route it records. *)
Lemma ServeHTTP_route (m : Middleware) (elapsed : Duration) (w : W)
    (r : Request) :
  ServeHTTP m elapsed w r
  = let ww := serve (handlerOf m r) {| ResponseWriter_ := w; status := 0 |} r in
    let route := routeOf m r in
    (ResponseWriter_ ww,
     if filterPath m (Path r)
        || (negb (String.eqb route "") && filterRoute m route)
     then None
     else
       Some {| level := leveler m (status ww);
               msg := Method r +:+ " " +:+ Path r +:+ " ["
                      +:+ formatInt (status ww) +:+ "]";
               attrs :=
                 fold_left (fun attrs fn => attrs ++ fn (Context r))
                   (extractors m)
                   (if negb (String.eqb route "")
                    then [ ("http.status_code", IntValue (status ww));
                           ("http.path", StringValue (Path r));
                           ("http.method", StringValue (Method r));
                           ("duration", DurationValue elapsed) ]
                         ++ [("http.route", StringValue route)]
                    else [ ("http.status_code", IntValue (status ww));
                           ("http.path", StringValue (Path r));
                           ("http.method", StringValue (Method r));
                           ("duration", DurationValue elapsed) ]) |}).
Proof.
  unfold ServeHTTP, handlerOf, routeOf.
  destruct (target m) as [Handler | h].
  - destruct (Handler r) as [handler pattern]. reflexivity.
  - reflexivity.
Qed.

Lemma fold_extractors_flat (fns : list ContextExtractor) (ctx : Ctx)
    (attrs : list Attr) :
  fold_left (fun attrs fn => attrs ++ fn ctx) fns attrs
  = attrs ++ flat_map (fun fn => fn ctx) fns.
Proof.
  revert attrs. induction fns as [|fn fns IH]; intros attrs; simpl.
  - rewrite app_nil_r. reflexivity.
  - rewrite IH, <- app_assoc. reflexivity.
Qed.

Lemma fold_union_elem (xs : list string) (s : gset string) (p : string) :
  p ∈ fold_left (fun s x => {[ x ]} ∪ s) xs s <-> p ∈ s \/ In p xs.
Proof.
  revert s. induction xs as [|x xs IH]; intros s; simpl.
  - tauto.
  - rewrite IH, elem_of_union, elem_of_singleton.
    intuition congruence.
Qed.

(** What a sequence of option calls makes of a stage. *)
Lemma options_configured (calls : list LogOptionCall) (m0 : Middleware)
    (p : string) :
  let m := fold_left (fun m o => o m) (map logOptionOf calls) m0 in
  (p ∈ filteredPaths m
   <-> p ∈ filteredPaths m0
       \/ exists paths, In (CallWithPathFilter paths) calls /\ In p paths)
  /\ (p ∈ filteredRoutes m
      <-> p ∈ filteredRoutes m0
          \/ exists routes,
               In (CallWithRouteFilter routes) calls /\ In p routes)
  /\ extractors m = extractors m0 ++ configuredExtractors calls
  /\ leveler m = configuredLeveler (leveler m0) calls
  /\ target m = target m0.
Proof.
  revert m0. induction calls as [|c calls IH]; intros m0.
  - simpl. rewrite app_nil_r. repeat split; try tauto.
    + intros [Hp | [paths [[] _]]]. exact Hp.
    + intros [Hp | [routes [[] _]]]. exact Hp.
  - cbn [map fold_left]. cbv zeta in IH |- *.
    destruct (IH (logOptionOf c m0)) as [IHp [IHr [IHe [IHl IHt]]]].
    rewrite IHp, IHr, IHe, IHl, IHt. clear IH IHp IHr IHe IHl IHt.
    destruct c as [paths | routes | fns | fn];
      cbn [logOptionOf WithPathFilter WithRouteFilter WithContextExtractors
           WithLeveler filteredPaths filteredRoutes extractors leveler target
           configuredExtractors configuredLeveler];
      rewrite ?fold_union_elem, <- ?app_assoc;
      (split; [|split; [|repeat split]]);
      first
        [ reflexivity
        | split;
          [ intros [[Hp | Hin] | [xs [Hin Hp]]];
            [ left; exact Hp
            | right; eexists; split; [left; reflexivity | exact Hin]
            | right; exists xs; split; [right; exact Hin | exact Hp] ]
          | intros [Hp | [xs [[Heq | Hin] Hp]]];
            [ left; left; exact Hp
            | injection Heq as <-; left; right; exact Hp
            | right; exists xs; split; assumption ] ]
        | split;
          [ intros [Hp | [xs [Hin Hp]]];
            [ left; exact Hp
            | right; exists xs; split; [right; exact Hin | exact Hp] ]
          | intros [Hp | [xs [[Heq | Hin] Hp]]];
            [ left; exact Hp
            | discriminate Heq
            | right; exists xs; split; assumption ] ] ].
Qed.

Lemma configuredLeveler_none (calls : list LogOptionCall) (fn : Leveler) :
  (forall fn', ~ In (CallWithLeveler fn') calls) ->
  configuredLeveler fn calls = fn.
Proof.
  intros Hno. induction calls as [|c calls IH]; [reflexivity|].
  assert (Hrest : forall fn', ~ In (CallWithLeveler fn') calls).
  { intros fn' Hin. apply (Hno fn'). right. exact Hin. }
  destruct c as [paths | routes | fns | fn'']; cbn [configuredLeveler];
    try (apply IH; exact Hrest).
  exfalso. apply (Hno fn''). left. reflexivity.
Qed.


(** X11. The last [WriteHeader] wins: when the handler calls
    [WriteHeader] with a non-zero code and does not call it again
    afterwards, the status the wrapped writer has captured is that code,
    whatever the handler set or wrote before and whatever it writes
    after. *)
Theorem captured_status_last_WriteHeader
    (m : Middleware) (w : W) (r : Request)
    (pre post : list WriterCall) (code : Z) :
  handlerOf m r r = pre ++ CallWriteHeader code :: post ->
  forallb (fun c => negb (setsStatus c)) post = true ->
  code <> 0 ->
  capturedStatus m w r = code.
Proof.
  intros Hcalls Hpost Hcode. unfold capturedStatus, serve.
  rewrite Hcalls, fold_left_app. cbn [fold_left].
  rewrite (calls_without_status _ _ Hpost).
  unfold call at 1. rewrite WriteHeader_status.
  apply Z.eqb_neq in Hcode. rewrite Hcode. reflexivity.
Qed.

(** X12. A handler that returns without calling the writer is logged with
    the status 0: behind a stage without options the writer is handed back
    untouched and the record is at level Info, with the message
    [METHOD PATH [0]] and the four base attributes. *)
Theorem silent_handler_logged_zero
    (h : HandlerFunc) (elapsed : Duration) (w : W) (r : Request) :
  h r = [] ->
  ServeHTTP (Wrap (OtherHandler h) []) elapsed w r
  = (w,
     Some {| level := LevelInfo;
             msg := Method r +:+ " " +:+ Path r +:+ " [0]";
             attrs := [ ("http.status_code", IntValue 0);
                        ("http.path", StringValue (Path r));
                        ("http.method", StringValue (Method r));
                        ("duration", DurationValue elapsed) ] |}).
Proof.
  intros Hh. unfold ServeHTTP, Wrap. cbn [fold_left target].
  unfold serve. rewrite Hh. reflexivity.
Qed.

(** X13. The stage logs unless a filter matches: no record is emitted
    exactly when the path of the request is a filtered path, or the route
    the request matched is not empty and is a filtered route. *)
Theorem ServeHTTP_logs_unless_filtered
    (m : Middleware) (elapsed : Duration) (w : W) (r : Request) :
  snd (ServeHTTP m elapsed w r) = None
  <-> (Path r ∈ filteredPaths m
       \/ (routeOf m r <> "" /\ routeOf m r ∈ filteredRoutes m)).
Proof.
  rewrite ServeHTTP_route. cbv zeta. cbn [snd].
  unfold filterPath, filterRoute.
  destruct (bool_decide_reflect (Path r ∈ filteredPaths m)) as [Hp | Hp];
    destruct (String.eqb_spec (routeOf m r) "") as [Hr | Hr];
    destruct (bool_decide_reflect (routeOf m r ∈ filteredRoutes m))
      as [Hf | Hf];
    simpl; split; intros Hyp; try reflexivity; try discriminate Hyp;
    tauto.
Qed.

(** X14. The record the stage emits: its level is the leveler's answer
    for the captured status, its message is [METHOD PATH [status]], and
    its attributes are the status, the path, the method and the duration,
    then the route if the request matched one, then the attributes of
    every context extractor, in the order the extractors were
    configured. *)
Theorem ServeHTTP_record
    (m : Middleware) (elapsed : Duration) (w : W) (r : Request)
    (rec : Record_) :
  snd (ServeHTTP m elapsed w r) = Some rec ->
  let st := capturedStatus m w r in
  level rec = leveler m st
  /\ msg rec = Method r +:+ " " +:+ Path r +:+ " [" +:+ formatInt st +:+ "]"
  /\ attrs rec
     = [ ("http.status_code", IntValue st);
         ("http.path", StringValue (Path r));
         ("http.method", StringValue (Method r));
         ("duration", DurationValue elapsed) ]
       ++ (if String.eqb (routeOf m r) "" then []
           else [("http.route", StringValue (routeOf m r))])
       ++ flat_map (fun fn => fn (Context r)) (extractors m).
Proof.
  rewrite ServeHTTP_route. cbv zeta. cbn [snd]. fold (capturedStatus m w r).
  destruct (filterPath m (Path r) || _); [discriminate|].
  intros [= <-]. cbn [level msg attrs]. split; [reflexivity|].
  split; [reflexivity|]. rewrite fold_extractors_flat.
  destruct (String.eqb (routeOf m r) ""); cbn [negb]; rewrite <- ?app_assoc;
    reflexivity.
Qed.

(** X15. The filters accumulate over the option calls: a stage built by
    [Wrap] filters a path exactly when some [WithPathFilter] call listed
    it, and a route exactly when some [WithRouteFilter] call listed it;
    without such calls nothing is filtered, and neither filter feeds the
    other. *)
Theorem Wrap_filters_accumulate
    (h : Target) (calls : list LogOptionCall) (p : string) :
  let m := Wrap h (map logOptionOf calls) in
  (filterPath m p = true
   <-> exists paths, In (CallWithPathFilter paths) calls /\ In p paths)
  /\ (filterRoute m p = true
      <-> exists routes, In (CallWithRouteFilter routes) calls /\ In p routes).
Proof.
  intros m. unfold filterPath, filterRoute.
  rewrite !bool_decide_eq_true. unfold m, Wrap.
  destruct (options_configured calls
              {| target := h; leveler := defaultLeveler; filteredPaths := ∅;
                 filteredRoutes := ∅; extractors := [] |} p)
    as [Hp [Hr _]].
  cbv zeta in Hp, Hr. cbn [filteredPaths filteredRoutes] in Hp, Hr.
  rewrite Hp, Hr. split; split;
    try (intros [Hempty | Hex]; [set_solver | exact Hex]);
    intros Hex; right; exact Hex.
Qed.

(** X16. Extractors accumulate and the last leveler wins: a stage built
    by [Wrap] holds the extractors of all [WithContextExtractors] calls,
    in the order of the calls and of their arguments, the leveler of the
    last [WithLeveler] call, or the default leveler without one, and the
    handler it was given. *)
Theorem Wrap_extractors_leveler
    (h : Target) (calls : list LogOptionCall) :
  let m := Wrap h (map logOptionOf calls) in
  extractors m = configuredExtractors calls
  /\ leveler m = configuredLeveler defaultLeveler calls
  /\ target m = h.
Proof.
  intros m. unfold m, Wrap.
  destruct (options_configured calls
              {| target := h; leveler := defaultLeveler; filteredPaths := ∅;
                 filteredRoutes := ∅; extractors := [] |} "")
    as [_ [_ [He [Hl Ht]]]].
  cbv zeta in He, Hl, Ht. rewrite He, Hl, Ht. repeat split.
Qed.


(** X18. Without a [WithLeveler] call the level follows the captured
    status: a record is at level Error exactly when the status is 500 or
    more, and at level Info exactly when it is below 500, the status 0 of
    a handler that wrote nothing included. *)
Theorem default_level_by_status
    (h : Target) (calls : list LogOptionCall) (elapsed : Duration) (w : W)
    (r : Request) (rec : Record_) :
  (forall fn, ~ In (CallWithLeveler fn) calls) ->
  let m := Wrap h (map logOptionOf calls) in
  snd (ServeHTTP m elapsed w r) = Some rec ->
  (level rec = LevelError <-> 500 <= capturedStatus m w r)
  /\ (level rec = LevelInfo <-> capturedStatus m w r < 500).
Proof.
  intros Hno m. rewrite ServeHTTP_route. cbv zeta. cbn [snd].
  fold (capturedStatus m w r).
  destruct (filterPath m (Path r) || _); [discriminate|].
  intros [= <-]. cbn [level].
  assert (Hl : leveler m = defaultLeveler).
  { unfold m, Wrap.
    destruct (options_configured calls
                {| target := h; leveler := defaultLeveler;
                   filteredPaths := ∅; filteredRoutes := ∅;
                   extractors := [] |} "") as [_ [_ [_ [Hl _]]]].
    cbv zeta in Hl. rewrite Hl. apply configuredLeveler_none. exact Hno. }
  rewrite Hl. unfold defaultLeveler, LevelError, LevelInfo.
  destruct (Z.geb_spec (capturedStatus m w r) 500) as [Hge | Hlt];
    split; split; intros Hyp; try reflexivity; try discriminate Hyp; lia.
Qed.

End LoggingCoverage.

(** Witness of X11: a handler that sets 404, then 201, and then writes,
    in front of a recorder. *)
Lemma captured_status_last_WriteHeader_witness :
  capturedStatus (logging.Wrap (logging.OtherHandler setTwice) [])
    NewRecorder requestPlain = 201.
Proof.
  apply (captured_status_last_WriteHeader
           (logging.Wrap (logging.OtherHandler setTwice) [])
           NewRecorder requestPlain
           [logging.CallWriteHeader 404]
           [logging.CallWrite (list_ascii_of_string "created")] 201).
  - reflexivity.
  - reflexivity.
  - discriminate.
Defined.

(** Witness of X12: the handler without calls in front of a recorder. *)
Lemma silent_handler_logged_zero_witness :
  logging.ServeHTTP (logging.Wrap (logging.OtherHandler silent) []) 5
    NewRecorder requestPlain
  = (NewRecorder,
     Some {| logging.level := logging.LevelInfo;
             logging.msg := "GET / [0]";
             logging.attrs :=
               [ ("http.status_code", logging.IntValue 0);
                 ("http.path", logging.StringValue "/");
                 ("http.method", logging.StringValue "GET");
                 ("duration", logging.DurationValue 5) ] |}).
Proof.
  apply (silent_handler_logged_zero silent 5 NewRecorder requestPlain).
  reflexivity.
Defined.

(** Witness of X14: a request that a multiplexer resolves, behind a stage
    with one extractor. *)
Lemma ServeHTTP_record_witness :
  exists rec,
    snd (logging.ServeHTTP itemsStage 5 NewRecorder requestPlain) = Some rec
    /\ logging.attrs rec
       = [ ("http.status_code", logging.IntValue 200);
           ("http.path", logging.StringValue "/");
           ("http.method", logging.StringValue "GET");
           ("duration", logging.DurationValue 5);
           ("http.route", logging.StringValue "GET /items/{id}");
           ("request_id", logging.StringValue "42") ].
Proof.
  destruct (snd (logging.ServeHTTP itemsStage 5 NewRecorder requestPlain))
    as [rec|] eqn:E.
  - exists rec. split; [reflexivity|].
    destruct (ServeHTTP_record itemsStage 5 NewRecorder requestPlain rec E)
      as [_ [_ Hattrs]].
    exact Hattrs.
  - discriminate E.
Defined.


(** Witness of X18: a handler that reports a failure with
    [WriteHeader(500)], behind a stage without options. *)
Lemma default_level_by_status_witness :
  exists rec,
    snd (logging.ServeHTTP
           (logging.Wrap (logging.OtherHandler writeThenFail) []) 5
           NewRecorder requestPlain) = Some rec
    /\ logging.level rec = logging.LevelError.
Proof.
  destruct (snd (logging.ServeHTTP
                   (logging.Wrap (logging.OtherHandler writeThenFail) []) 5
                   NewRecorder requestPlain)) as [rec|] eqn:E.
  - exists rec. split; [reflexivity|].
    destruct (default_level_by_status (logging.OtherHandler writeThenFail)
                [] 5 NewRecorder requestPlain rec
                (fun fn Hin => Hin) E) as [[_ Herr] _].
    apply Herr. vm_compute. discriminate.
  - discriminate E.
Defined.

(* ===================================================================== *)
(** ** Properties of the OpenTelemetry extractor                          *)
(* ===================================================================== *)

Section ExtractorCoverage.

Import otelextractor.

Variable SpanContext : Type.
Variable SpanContextFromContext : Ctx -> SpanContext.
Variable IsValid : SpanContext -> bool.
Variable TraceIDString : SpanContext -> string.
Variable SpanIDString : SpanContext -> string.

(** X19. The extractor never emits an attribute with an empty key,
    whatever the options are: the top-level keys and the keys inside a
    group are the configured names or the defaults. *)
Theorem New_keys_never_empty (opts : option Options) (ctx : Ctx) :
  Forall (fun key => key <> "") (flat_map keysOf (New SpanContext SpanContextFromContext IsValid TraceIDString
       SpanIDString opts ctx)).
Proof.
  unfold New.
  set (o := match opts with
            | Some o => o
            | None => {| Group := ""; TraceID := ""; SpanID := "" |}
            end).
  assert (Hkey : forall name dflt : string,
             dflt <> "" ->
             (if negb (String.eqb name "") then name else dflt) <> "").
  { intros name dflt Hd. destruct (String.eqb_spec name ""); simpl; assumption. }
  pose proof (Hkey (TraceID o) "trace_id" ltac:(discriminate)) as Ht.
  pose proof (Hkey (SpanID o) "span_id" ltac:(discriminate)) as Hs.
  destruct (IsValid (SpanContextFromContext ctx)); [|constructor].
  destruct (String.eqb_spec
              (if negb (String.eqb (Group o) "") then Group o else "") "")
    as [Hg | Hg]; cbn; repeat constructor; assumption.
Qed.

(** X20. Grouping changes the nesting only: with or without a group, for
    nil options as for empty ones, the attributes carry the trace id and
    the span id of a valid span context, in this order, under the
    configured names or the defaults [trace_id] and [span_id], and nothing
    for an invalid one. *)
Theorem New_grouping_keeps_leaves (opts : option Options) (ctx : Ctx) :
  let o :=
    match opts with
    | Some o => o
    | None => {| Group := ""; TraceID := ""; SpanID := "" |}
    end in
  let sc := SpanContextFromContext ctx in
  flat_map leaves (New SpanContext SpanContextFromContext IsValid TraceIDString
       SpanIDString opts ctx)
  = if IsValid sc
    then [ (if String.eqb (TraceID o) "" then "trace_id" else TraceID o,
            TraceIDString sc);
           (if String.eqb (SpanID o) "" then "span_id" else SpanID o,
            SpanIDString sc) ]
    else [].
Proof.
  intros o sc. unfold New. fold o. fold sc.
  destruct (IsValid sc); [|reflexivity].
  destruct (String.eqb
              (if negb (String.eqb (Group o) "") then Group o else "") "");
    destruct (String.eqb (TraceID o) "");
    destruct (String.eqb (SpanID o) ""); reflexivity.
Qed.

(** X21. The extractor emits nothing exactly when the context holds no
    valid span context. *)
Theorem New_empty_iff_invalid (opts : option Options) (ctx : Ctx) :
  New SpanContext SpanContextFromContext IsValid TraceIDString SpanIDString
    opts ctx = []
  <-> IsValid (SpanContextFromContext ctx) = false.
Proof.
  unfold New. destruct (IsValid (SpanContextFromContext ctx)).
  - split; [|discriminate].
    destruct (negb (String.eqb _ "")); discriminate.
  - split; reflexivity.
Qed.

End ExtractorCoverage.
